(** * ZONORG farming game: persistence and ranking engine

    A shallow embedding of [database/database.js] (class [Database]), of
    the route handlers in [database/routes], [routes/game.js] and
    [routes/leaderboard.js], and of the table declarations in
    [database/schema.sql] and [createTablesDirectly], together with the
    properties the specification states about them.

    Conventions.
    - JavaScript values are the inductive [value]; a property that is
      missing reads as [VUndefined].  Numbers are the integers: a number
      with a fraction or an exponent is outside the model, and every
      statement about JSON below is about values whose numbers are
      integers.
    - A [Promise] that settles is a [promise]: [Resolve x] or [Reject e].
      A method of [Database] takes the store and returns the store it
      leaves and the promise.
    - SQLite tables are lists of rows in rowid order; [CURRENT_TIMESTAMP]
      is an explicit argument [now] (seconds, in the order of the
      'YYYY-MM-DD HH:MM:SS' text SQLite stores).  [game_saves] has two
      declarations with different columns; the tables of [schema.sql]
      are the type [db], those of [createTablesDirectly] the type
      [direct_db], and a [store] is one or the other.
    - A route file reaches the engine through what it requires or is
      handed: [req.db] is an instance of [Database]; the [database] of
      [routes/game.js] and [routes/leaderboard.js] is what
      [database.js] exports, the class.
    - [bcrypt], [sha256], [jwt.sign] and [toLocaleString] are library
      functions; they are the fields of the class [Host].
    - Operations the routes call that [Database] does not define are in
      the modules [SessionManager] and [AchievementLedger], modelled from
      the specification. *)

From Stdlib Require Import ZArith List String Ascii Bool Lia.
From Stdlib Require Import DecimalZ DecimalN DecimalPos.
From Stdlib Require Import Sorting.Sorted Sorting.Permutation.
Import ListNotations.

Local Open Scope string_scope.
Local Open Scope Z_scope.

(* ================================================================== *)
(** * JavaScript values *)

#[local] Unset Elimination Schemes.

Inductive value : Type :=
| VUndefined
| VNull
| VBool (b : bool)
| VNum (n : Z)
| VStr (s : string)
| VArr (xs : list value)
| VObj (ps : list (string * value)).

#[local] Set Elimination Schemes.

(** Own properties of an object, in enumeration order. *)
Definition props := list (string * value).

Fixpoint assoc (k : string) (ps : props) : option value :=
  match ps with
  | [] => None
  | (k', v) :: r => if String.eqb k k' then Some v else assoc k r
  end.

(** [o.k]: reading a property that is not there gives [undefined]. *)
Definition get (o : value) (k : string) : value :=
  match o with
  | VObj ps => match assoc k ps with Some v => v | None => VUndefined end
  | _ => VUndefined
  end.

(** [o[k] = v]: an existing property keeps its place, a new one goes last. *)
Fixpoint obj_set (k : string) (v : value) (ps : props) : props :=
  match ps with
  | [] => [(k, v)]
  | (k', v') :: r =>
      if String.eqb k k' then (k', v) :: r else (k', v') :: obj_set k v r
  end.

Definition is_undefined (v : value) : bool :=
  match v with VUndefined => true | _ => false end.

Definition nullish (v : value) : bool :=
  match v with VUndefined | VNull => true | _ => false end.

(** ToBoolean. *)
Definition truthy (v : value) : bool :=
  match v with
  | VUndefined | VNull => false
  | VBool b => b
  | VNum n => negb (n =? 0)
  | VStr s => negb (String.eqb s EmptyString)
  | VArr _ | VObj _ => true
  end.

(** [a || b] *)
Definition js_or (a b : value) : value := if truthy a then a else b.

Definition is_object (v : value) : bool :=
  match v with VObj _ => true | _ => false end.

Definition is_array (v : value) : bool :=
  match v with VArr _ => true | _ => false end.

(** [v === n] for a number [n]; [None] is [NaN], which equals nothing. *)
Definition strict_eq_num (v : value) (n : option Z) : bool :=
  match v, n with
  | VNum m, Some k => m =? k
  | _, _ => false
  end.

(** Settled promises and the errors the code rejects with. *)
Inductive error : Type :=
| Error (message : string)
| TypeError
(* the error object of node-sqlite3: [code] is the primary result code
   of SQLite, [message] starts with it *)
| SqliteError (code message : string).

Inductive promise (A : Type) : Type :=
| Resolve (x : A)
| Reject (e : error).
Arguments Resolve {A} x.
Arguments Reject {A} e.

(* ================================================================== *)
(** * JSON.stringify and JSON.parse

    The printer and the parser of the values of the model.  The text is
    a [list ascii] internally; a string is the sequence of its bytes;
    strings escape the quote, the backslash and the control characters
    as [JSON.stringify] does.  Numbers are integers in decimal, which
    is how [JSON.stringify] writes an integer of magnitude below 10^21.
    A number text with a fraction or an exponent stands for a number
    outside the model: [parse] has no value for it and gives [None],
    where the parser of JavaScript reads it.  The statements below that
    rest on a round trip are therefore about values whose numbers are
    integers. *)

Module JSON.

Local Open Scope char_scope.

Definition chars (s : string) : list ascii := list_ascii_of_string s.

Fixpoint print_uint (d : Decimal.uint) : list ascii :=
  match d with
  | Decimal.Nil => []
  | Decimal.D0 u => "0" :: print_uint u
  | Decimal.D1 u => "1" :: print_uint u
  | Decimal.D2 u => "2" :: print_uint u
  | Decimal.D3 u => "3" :: print_uint u
  | Decimal.D4 u => "4" :: print_uint u
  | Decimal.D5 u => "5" :: print_uint u
  | Decimal.D6 u => "6" :: print_uint u
  | Decimal.D7 u => "7" :: print_uint u
  | Decimal.D8 u => "8" :: print_uint u
  | Decimal.D9 u => "9" :: print_uint u
  end.

Definition print_int (d : Decimal.signed_int) : list ascii :=
  match d with
  | Decimal.Pos u => print_uint u
  | Decimal.Neg u => "-" :: print_uint u
  end.

Definition hex_digit (n : nat) : ascii :=
  ascii_of_nat (if Nat.ltb n 10 then 48 + n else 87 + n).

(** The escape of one character inside a string literal. *)
Definition escape (c : ascii) : list ascii :=
  let n := nat_of_ascii c in
  if c =? "034" then ["\"; "034"]
  else if c =? "\" then ["\"; "\"]
  else if Nat.eqb n 8 then ["\"; "b"]
  else if Nat.eqb n 9 then ["\"; "t"]
  else if Nat.eqb n 10 then ["\"; "n"]
  else if Nat.eqb n 12 then ["\"; "f"]
  else if Nat.eqb n 13 then ["\"; "r"]
  else if Nat.ltb n 32 then
    ["\"; "u"; "0"; "0"; hex_digit (Nat.div n 16); hex_digit (Nat.modulo n 16)]
  else [c].

Fixpoint escape_all (s : string) : list ascii :=
  match s with
  | EmptyString => []
  | String c r => escape c ++ escape_all r
  end.

Definition print_string (s : string) : list ascii :=
  "034" :: escape_all s ++ ["034"].

(** Inside an array [undefined] is written [null]; inside an object a
    property whose value is [undefined] is left out.  Elements and members
    are written with a leading comma each and the first comma is dropped. *)
Fixpoint print (v : value) : list ascii :=
  match v with
  | VUndefined => chars "null"
  | VNull => chars "null"
  | VBool true => chars "true"
  | VBool false => chars "false"
  | VNum n => print_int (Z.to_int n)
  | VStr s => print_string s
  | VArr xs => "[" :: tl (flat_map (fun x => "," :: print x) xs) ++ ["]"]
  | VObj ps =>
      "{" :: tl (flat_map (fun p =>
                   if is_undefined (snd p) then []
                   else "," :: print_string (fst p) ++ ":" :: print (snd p)) ps)
          ++ ["}"]
  end.

(** [JSON.stringify(v)]; [None] is the [undefined] it returns for
    [undefined]. *)
Definition stringify (v : value) : option string :=
  if is_undefined v then None else Some (string_of_list_ascii (print v)).

(** ** Parsing *)

Definition is_ws (c : ascii) : bool :=
  (c =? " ") || (nat_of_ascii c =? 9)%nat || (nat_of_ascii c =? 10)%nat
  || (nat_of_ascii c =? 13)%nat.

Fixpoint skip_ws (s : list ascii) : list ascii :=
  match s with
  | c :: r => if is_ws c then skip_ws r else s
  | [] => []
  end.

Definition digit_of (c : ascii) : option (Decimal.uint -> Decimal.uint) :=
  if c =? "0" then Some Decimal.D0
  else if c =? "1" then Some Decimal.D1
  else if c =? "2" then Some Decimal.D2
  else if c =? "3" then Some Decimal.D3
  else if c =? "4" then Some Decimal.D4
  else if c =? "5" then Some Decimal.D5
  else if c =? "6" then Some Decimal.D6
  else if c =? "7" then Some Decimal.D7
  else if c =? "8" then Some Decimal.D8
  else if c =? "9" then Some Decimal.D9
  else None.

(** The longest prefix of digits. *)
Fixpoint read_uint (s : list ascii) : Decimal.uint * list ascii :=
  match s with
  | c :: r =>
      match digit_of c with
      | Some k => let (u, r') := read_uint r in (k u, r')
      | None => (Decimal.Nil, s)
      end
  | [] => (Decimal.Nil, [])
  end.

(** A JSON integer has at least one digit and no leading zero. *)
Definition int_digits_ok (u : Decimal.uint) : bool :=
  match u with
  | Decimal.Nil => false
  | Decimal.D0 Decimal.Nil => true
  | Decimal.D0 _ => false
  | _ => true
  end.

Definition parse_number (s : list ascii) : option (value * list ascii) :=
  match s with
  | c :: r =>
      if c =? "-" then
        let (u, r') := read_uint r in
        if int_digits_ok u
        then Some (VNum (Z.of_int (Decimal.Neg u)), r') else None
      else
        let (u, r') := read_uint s in
        if int_digits_ok u
        then Some (VNum (Z.of_int (Decimal.Pos u)), r') else None
  | [] => None
  end.

Definition hex_val (c : ascii) : option nat :=
  let n := nat_of_ascii c in
  if (Nat.leb 48 n && Nat.leb n 57)%bool then Some (n - 48)%nat
  else if (Nat.leb 97 n && Nat.leb n 102)%bool then Some (n - 87)%nat
  else if (Nat.leb 65 n && Nat.leb n 70)%bool then Some (n - 55)%nat
  else None.

(** The characters of a string literal after its opening quote, up to and
    including the closing quote.  A code unit above 255 has no [ascii]
    and is refused. *)
Fixpoint parse_chars (s : list ascii) : option (string * list ascii) :=
  match s with
  | [] => None
  | c :: r =>
      if c =? "034" then Some (EmptyString, r)
      else if c =? "\" then
        match r with
        | [] => None
        | e :: r1 =>
            let simple (x : ascii) :=
              match parse_chars r1 with
              | Some (t, r') => Some (String x t, r')
              | None => None
              end in
            if e =? "034" then simple "034"
            else if e =? "\" then simple "\"
            else if e =? "/" then simple "/"
            else if e =? "b" then simple (ascii_of_nat 8)
            else if e =? "t" then simple (ascii_of_nat 9)
            else if e =? "n" then simple (ascii_of_nat 10)
            else if e =? "f" then simple (ascii_of_nat 12)
            else if e =? "r" then simple (ascii_of_nat 13)
            else if e =? "u" then
              match r1 with
              | h1 :: h2 :: h3 :: h4 :: r2 =>
                  match hex_val h1, hex_val h2, hex_val h3, hex_val h4 with
                  | Some O, Some O, Some a, Some b =>
                      match parse_chars r2 with
                      | Some (t, r') =>
                          Some (String (ascii_of_nat (16 * a + b)) t, r')
                      | None => None
                      end
                  | _, _, _, _ => None
                  end
              | _ => None
              end
            else None
        end
      else if Nat.ltb (nat_of_ascii c) 32 then None
      else
        match parse_chars r with
        | Some (t, r') => Some (String c t, r')
        | None => None
        end
  end.

(** [p] as a prefix of [s]: what follows it. *)
Fixpoint starts_with (p s : list ascii) : option (list ascii) :=
  match p with
  | [] => Some s
  | c :: p' =>
      match s with
      | c' :: s' => if c =? c' then starts_with p' s' else None
      | [] => None
      end
  end.

Section Loops.

(** The value parser one level down. *)
Variable pv : list ascii -> option (value * list ascii).

(** After the first element: [, value]* followed by the closing bracket. *)
Fixpoint parse_elems (n : nat) (s : list ascii) (acc : list value)
  : option (list value * list ascii) :=
  match n with
  | O => None
  | S n' =>
      match skip_ws s with
      | c :: r =>
          if c =? "]" then Some (rev acc, r)
          else if c =? "," then
            match pv r with
            | Some (v, r') => parse_elems n' r' (v :: acc)
            | None => None
            end
          else None
      | [] => None
      end
  end.

(** One member, ["key" : value], set on the object built so far. *)
Definition parse_member (s : list ascii) (acc : props)
  : option (props * list ascii) :=
  match skip_ws s with
  | q :: r =>
      if q =? "034" then
        match parse_chars r with
        | Some (k, r1) =>
            match skip_ws r1 with
            | c :: r2 =>
                if c =? ":" then
                  match pv r2 with
                  | Some (v, r3) => Some (obj_set k v acc, r3)
                  | None => None
                  end
                else None
            | [] => None
            end
        | None => None
        end
      else None
  | [] => None
  end.

(** After the first member: [, member]* followed by the closing brace. *)
Fixpoint parse_members (n : nat) (s : list ascii) (acc : props)
  : option (props * list ascii) :=
  match n with
  | O => None
  | S n' =>
      match skip_ws s with
      | c :: r =>
          if c =? "}" then Some (acc, r)
          else if c =? "," then
            match parse_member r acc with
            | Some (acc', r') => parse_members n' r' acc'
            | None => None
            end
          else None
      | [] => None
      end
  end.

(** One value, its components read by [pv]. *)
Definition parse_step (s : list ascii) : option (value * list ascii) :=
  match skip_ws s with
  | [] => None
  | c :: r =>
      if c =? "n" then
        match starts_with (chars "ull") r with
        | Some r' => Some (VNull, r') | None => None end
      else if c =? "t" then
        match starts_with (chars "rue") r with
        | Some r' => Some (VBool true, r') | None => None end
      else if c =? "f" then
        match starts_with (chars "alse") r with
        | Some r' => Some (VBool false, r') | None => None end
      else if c =? "034" then
        match parse_chars r with
        | Some (t, r') => Some (VStr t, r') | None => None end
      else if c =? "[" then
        match skip_ws r with
        | c1 :: r1 =>
            if c1 =? "]" then Some (VArr [], r1)
            else
              match pv r with
              | Some (v, r') =>
                  match parse_elems (S (List.length r')) r' [v] with
                  | Some (xs, r'') => Some (VArr xs, r'')
                  | None => None
                  end
              | None => None
              end
        | [] => None
        end
      else if c =? "{" then
        match skip_ws r with
        | c1 :: r1 =>
            if c1 =? "}" then Some (VObj [], r1)
            else
              match parse_member r [] with
              | Some (acc, r') =>
                  match parse_members (S (List.length r')) r' acc with
                  | Some (ps, r'') => Some (VObj ps, r'')
                  | None => None
                  end
              | None => None
              end
        | [] => None
        end
      else parse_number (c :: r)
  end.

End Loops.

(** The parser, [fuel] bounding the nesting depth. *)
Fixpoint parse_value (fuel : nat) (s : list ascii)
  : option (value * list ascii) :=
  match fuel with
  | O => None
  | S f => parse_step (parse_value f) s
  end.

(** [JSON.parse(text)]; [None] is the [SyntaxError] it throws. *)
Definition parse (text : string) : option value :=
  let s := chars text in
  match parse_value (S (List.length s)) s with
  | Some (v, r) => match skip_ws r with [] => Some v | _ => None end
  | None => None
  end.

(** ** Notions for the round trip *)

(** A character that can follow a value inside a text. *)
Definition delim (s : list ascii) : Prop :=
  match s with
  | [] => True
  | c :: _ => c = "," \/ c = "]" \/ c = "}"
  end.







End JSON.

(** The values that [JSON.parse] produces: no [undefined] anywhere and no
    object with two properties of the same name. *)
Fixpoint nodupb (l : list string) : bool :=
  match l with
  | [] => true
  | k :: r => negb (existsb (String.eqb k) r) && nodupb r
  end.

Fixpoint is_json (v : value) : bool :=
  match v with
  | VUndefined => false
  | VNull | VBool _ | VNum _ | VStr _ => true
  | VArr xs => forallb is_json xs
  | VObj ps => forallb (fun p => is_json (snd p)) ps && nodupb (map fst ps)
  end.

(** [pv] returns JSON values only. *)
Definition yields_json (pv : list ascii -> option (value * list ascii))
  : Prop :=
  forall s v r, pv s = Some (v, r) -> is_json v = true.

(** [String(v)] / template-literal conversion. *)
Definition string_of_Z (n : Z) : string :=
  string_of_list_ascii (JSON.print_int (Z.to_int n)).

Fixpoint to_string (v : value) : string :=
  match v with
  | VUndefined => "undefined"
  | VNull => "null"
  | VBool true => "true"
  | VBool false => "false"
  | VNum n => string_of_Z n
  | VStr s => s
  | VArr xs =>
      (fix join (l : list value) : string :=
         match l with
         | [] => EmptyString
         | x :: r =>
             (if nullish x then EmptyString else to_string x)
             ++ match r with [] => EmptyString | _ => "," ++ join r end
         end) xs
  | VObj _ => "[object Object]"
  end.

(** [o[k]] for a computed key. *)
Definition get_key (o : value) (k : value) : value := get o (to_string k).

(** [a[i]] for an array literal [a] and an index value [i]. *)
Definition index (a : list string) (i : value) : value :=
  match i with
  | VNum n => if n <? 0 then VUndefined
              else match nth_error a (Z.to_nat n) with
                   | Some s => VStr s
                   | None => VUndefined
                   end
  | _ => VUndefined
  end.

(** [v >= n] for a number literal [n] (only numbers are compared here). *)
Definition num_ge (v : value) (n : Z) : bool :=
  match v with VNum m => n <=? m | _ => false end.

(* ================================================================== *)
(** * Library functions the code calls *)

Class Host : Type := {
  (** [bcrypt.hashSync(password, rounds)] *)
  bcrypt_hashSync : string -> Z -> string;
  (** [bcrypt.compareSync(password, hash)] *)
  bcrypt_compareSync : string -> string -> bool;
  (** [crypto.createHash('sha256').update(token).digest('hex')] *)
  sha256_hex : string -> string;
  (** [Number.prototype.toLocaleString()] in the server's locale *)
  toLocaleString : Z -> string;
  (** [jwt.sign({ userId, username }, secret, { expiresIn })] *)
  jwt_sign : Z -> string -> string
}.

(* ================================================================== *)
(** * The SQLite store

    [game_saves] is declared twice in the repository.  [schema.sql],
    which [initSchema] runs when the file is there (it is, next to
    database.js), gives it the columns [game_state], [plots_data] and
    [camera_data]; [createTablesDirectly], the fallback, gives it
    [game_data], [level], [coins] and [sustainability_score].
    [saveGameState] and [loadGameState] name the former columns and
    [getLeaderboard] the latter: on the tables of [schema.sql] the query
    of [getLeaderboard] fails with "no such column", on the tables of
    [createTablesDirectly] the INSERT of [saveGameState] fails with "no
    column named".  [users] has in both declarations the columns the
    statements name, UNIQUE on [username] and on [email]. *)

Definition datetime := Z.

Record user_row : Type := mkUser {
  u_id : Z;
  u_username : string;
  u_email : string;
  u_password_hash : string;
  u_display_name : option string;      (* NULL is [None] *)
  u_last_login : option datetime;
  u_is_active : bool
}.

(** A row of [game_saves] as [schema.sql] declares it; [save_name],
    [created_at] and [is_auto_save], which no statement of [Database]
    names, are left out. *)
Record game_save_row : Type := mkSave {
  gs_id : Z;
  gs_user_id : Z;
  gs_game_state : string;
  gs_plots_data : string;
  gs_camera_data : string;
  gs_updated_at : datetime
}.

(** The tables of [schema.sql]. *)
Record db : Type := mkDb {
  users : list user_row;
  game_saves : list game_save_row;
  (** [sqlite_sequence]: the largest rowid AUTOINCREMENT has handed out *)
  seq_users : Z;
  seq_game_saves : Z
}.

Definition empty_db : db := mkDb [] [] 0 0.

(** A row of [game_saves] as [createTablesDirectly] declares it. *)
Record direct_save_row : Type := mkDirectSave {
  ds_id : Z;
  ds_user_id : Z;
  ds_game_data : string;
  ds_level : Z;
  ds_coins : Z;
  ds_sustainability_score : Z;
  ds_updated_at : datetime
}.

(** The tables of [createTablesDirectly]. *)
Record direct_db : Type := mkDirectDb {
  direct_users : list user_row;
  direct_game_saves : list direct_save_row
}.

(** The tables an instance of [Database] works on. *)
Inductive store : Type :=
| from_schema_sql (d : db)
| created_directly (d : direct_db).

(** The errors of SQLite the statements of [Database] run into, as
    node-sqlite3 hands them to the callback. *)
Definition unique_constraint_failed (column : string) : error :=
  SqliteError "SQLITE_CONSTRAINT"
              ("SQLITE_CONSTRAINT: UNIQUE constraint failed: " ++ column).

Definition not_null_constraint_failed (column : string) : error :=
  SqliteError "SQLITE_CONSTRAINT"
              ("SQLITE_CONSTRAINT: NOT NULL constraint failed: " ++ column).

Definition no_such_column (column : string) : error :=
  SqliteError "SQLITE_ERROR" ("SQLITE_ERROR: no such column: " ++ column).

Definition no_column_named (table column : string) : error :=
  SqliteError "SQLITE_ERROR"
              ("SQLITE_ERROR: table " ++ table ++ " has no column named "
               ++ column).

(** [err.code === code] *)
Definition has_code (err : error) (code : string) : bool :=
  match err with
  | SqliteError c _ => String.eqb c code
  | _ => false
  end.

(** [INTEGER PRIMARY KEY AUTOINCREMENT]: one more than the largest rowid
    the table holds or has ever held. *)
Definition autoincrement (seq : Z) (ids : list Z) : Z :=
  fold_right Z.max seq ids + 1.

(** [ORDER BY key DESC]: a stable insertion sort; rows with equal keys stay
    in the order the scan produced them. *)
Fixpoint insert_desc {R : Type} (key : R -> Z) (x : R) (l : list R) : list R :=
  match l with
  | [] => [x]
  | y :: r => if key y <=? key x then x :: y :: r else y :: insert_desc key x r
  end.

Fixpoint order_by_desc {R : Type} (key : R -> Z) (l : list R) : list R :=
  match l with
  | [] => []
  | x :: r => insert_desc key x (order_by_desc key r)
  end.

(** [LIMIT n]: a negative [n] is no limit. *)
Definition sql_limit {R : Type} (n : Z) (l : list R) : list R :=
  if n <? 0 then l else firstn (Z.to_nat n) l.

(** [a || b] on a nullable TEXT column. *)
Definition text_or (a : option string) (b : string) : string :=
  match a with
  | Some s => if String.eqb s EmptyString then b else s
  | None => b
  end.

(* ================================================================== *)
(** * HTTP responses *)

Record response : Type := mkResponse { status : Z; body : value }.

Definition json (st : Z) (b : value) : response := mkResponse st b.

Definition error_body (msg : string) : value := VObj [("error", VStr msg)].

(** [l.map(f)] for an [f] that may throw ([None]). *)
Fixpoint map_throw {A B : Type} (f : A -> option B) (l : list A)
  : option (list B) :=
  match l with
  | [] => Some []
  | x :: r =>
      match f x with
      | Some y => match map_throw f r with
                  | Some ys => Some (y :: ys)
                  | None => None
                  end
      | None => None
      end
  end.

(* ================================================================== *)
(** * class Database (database/database.js) *)

Section Database.

Context {host : Host}.

(** [INSERT INTO users (username, email, password_hash, display_name)]:
    [users] declares [username] and [email] UNIQUE (in both declarations);
    the result is the error of the statement or [this.lastID].  The error
    names one column that collides; which one, when both do, is the
    choice of SQLite, and no statement below depends on it. *)
Definition insert_user (d : db) (username email password_hash : string)
    (display_name : option string) : db * (error + Z) :=
  if existsb (fun u => String.eqb (u_username u) username
                       || String.eqb (u_email u) email) (users d)
  then (d, inl (unique_constraint_failed
                  (if existsb (fun u => String.eqb (u_email u) email) (users d)
                   then "users.email" else "users.username")))
  else
    let lastID := autoincrement (seq_users d) (map u_id (users d)) in
    let row := mkUser lastID username email password_hash display_name
                      None true in
    (mkDb (users d ++ [row]) (game_saves d) lastID (seq_game_saves d),
     inr lastID).

(** [createUser(username, email, password, displayName = null)] *)
Definition createUser (d : db) (username email password : string)
    (displayName : option string) : db * promise value :=
  let hashedPassword := bcrypt_hashSync password 10 in
  match insert_user d username email hashedPassword
                    (Some (text_or displayName username)) with
  | (d', inl err) =>
      if has_code err "SQLITE_CONSTRAINT_UNIQUE"
      then (d', Reject (Error "Username or email already exists"))
      else (d', Reject err)
  | (d', inr lastID) =>
      (d', Resolve (VObj [("id", VNum lastID); ("username", VStr username);
                          ("email", VStr email)]))
  end.

Definition value_of_text (t : option string) : value :=
  match t with Some s => VStr s | None => VNull end.

Definition touch_login (now : datetime) (id : Z) (u : user_row) : user_row :=
  if u_id u =? id
  then mkUser (u_id u) (u_username u) (u_email u) (u_password_hash u)
              (u_display_name u) (Some now) (u_is_active u)
  else u.

(** [SELECT * FROM users WHERE (username = ? OR email = ?) AND is_active
    = TRUE], read with [db.get]: the first row of the result.  SQLite
    answers the OR through the indexes of the two UNIQUE columns, the
    one of [username] first, so that a row matching by username comes
    before a row matching by email only. *)
Definition select_user (usernameOrEmail : string) (us : list user_row)
  : option user_row :=
  match find (fun u => String.eqb (u_username u) usernameOrEmail
                       && u_is_active u) us with
  | Some user => Some user
  | None => find (fun u => String.eqb (u_email u) usernameOrEmail
                           && u_is_active u) us
  end.

(** [authenticateUser(usernameOrEmail, password)] *)
Definition authenticateUser (d : db) (now : datetime)
    (usernameOrEmail password : string) : db * promise value :=
  match select_user usernameOrEmail (users d) with
  | None => (d, Reject (Error "User not found"))
  | Some user =>
      if negb (bcrypt_compareSync password (u_password_hash user))
      then (d, Reject (Error "Invalid password"))
      else
        (mkDb (map (touch_login now (u_id user)) (users d)) (game_saves d)
              (seq_users d) (seq_game_saves d),
         Resolve (VObj [("id", VNum (u_id user));
                        ("username", VStr (u_username user));
                        ("email", VStr (u_email user));
                        ("display_name", value_of_text (u_display_name user))]))
  end.

Definition default_camera : value :=
  VObj [("x", VNum 0); ("y", VNum 0); ("scrollEnabled", VBool false)].

(** [INSERT OR REPLACE INTO game_saves]: the rows that collide with the new
    one on a PRIMARY KEY or UNIQUE constraint are deleted first.  The
    declaration of [game_saves] has no constraint besides PRIMARY KEY
    (id). *)
Definition insert_or_replace_save (rows : list game_save_row)
    (row : game_save_row) : list game_save_row :=
  filter (fun r => negb (gs_id r =? gs_id row)) rows ++ [row].

(** [saveGameState(userId, gameData, metadata = {})], on the tables of
    [schema.sql] *)
Definition saveGameState (d : db) (now : datetime) (userId : Z)
    (gameData : value) : db * promise value :=
  if nullish gameData then (d, Reject TypeError)
  else
    let plots := js_or (get gameData "plots") (VArr []) in
    let camera := js_or (get gameData "camera") default_camera in
    match JSON.stringify (js_or (get gameData "gameState") (VObj [])),
          JSON.stringify plots, JSON.stringify camera with
    | Some game_state, Some plots_data, Some camera_data =>
        let lastID :=
          autoincrement (seq_game_saves d) (map gs_id (game_saves d)) in
        let row := mkSave lastID userId game_state plots_data camera_data
                          now in
        (mkDb (users d) (insert_or_replace_save (game_saves d) row)
              (seq_users d) lastID,
         Resolve (VObj [("id", VNum lastID)]))
    | _, _, _ =>
        (d, Reject (not_null_constraint_failed "game_saves.game_state"))
    end.

(** [SELECT * FROM game_saves WHERE user_id = ? ORDER BY updated_at DESC
    LIMIT 1] *)
Definition select_latest_save (d : db) (userId : Z) : option game_save_row :=
  hd_error (sql_limit 1 (order_by_desc gs_updated_at
              (filter (fun r => gs_user_id r =? userId) (game_saves d)))).

(** [loadGameState(userId)], on the tables of [schema.sql] *)
Definition loadGameState (d : db) (userId : Z) : promise value :=
  match select_latest_save d userId with
  | None => Resolve VNull
  | Some save =>
      match JSON.parse (gs_game_state save), JSON.parse (gs_plots_data save),
            JSON.parse (gs_camera_data save) with
      | Some gameState, Some plots, Some camera =>
          if nullish gameState
          then Reject (Error "Invalid game data format")
          else
            Resolve (VObj [
              ("gameData", VObj [
                 ("gameState", gameState);
                 ("plots", plots);
                 ("camera", camera);
                 ("sustainabilityMetrics",
                    js_or (get gameState "sustainabilityMetrics") (VObj []));
                 ("weather", js_or (get gameState "weather") (VObj []));
                 ("season", js_or (get gameState "season") (VObj []))]);
              ("metadata", VObj [("lastSaved", VNum (gs_updated_at save))])])
      | _, _, _ => Reject (Error "Invalid game data format")
      end
  end.

(** [saveGameState] on the tables of [createTablesDirectly]: the INSERT
    names [game_state], which [game_saves] does not have there. *)
Definition direct_saveGameState (d : direct_db) (userId : Z)
    (gameData : value) : promise value :=
  if nullish gameData then Reject TypeError
  else Reject (no_column_named "game_saves" "game_state").

(** [FROM users u JOIN game_saves gs ON u.id = gs.user_id]: SQLite scans
    [game_saves] and looks the user up by its primary key. *)
Definition join_users_saves (d : direct_db)
  : list (user_row * direct_save_row) :=
  flat_map (fun gs =>
    map (fun u => (u, gs))
        (filter (fun u => u_id u =? ds_user_id gs) (direct_users d)))
    (direct_game_saves d).

(** The column each category ranks by, with its name; [None] is the
    [default:] branch. *)
Definition score_column (category : string)
  : option (string * (direct_save_row -> Z)) :=
  if String.eqb category "coins" then Some ("gs.coins", ds_coins)
  else if String.eqb category "level" then Some ("gs.level", ds_level)
  else if String.eqb category "sustainability"
       then Some ("gs.sustainability_score", ds_sustainability_score)
  else None.

(** [rows.map((row, index) => ...)] *)
Fixpoint map_index {A B : Type} (f : A -> Z -> B) (i : Z) (l : list A)
  : list B :=
  match l with
  | [] => []
  | x :: r => f x i :: map_index f (i + 1) r
  end.

Definition leaderboard_entry (score : direct_save_row -> Z)
    (row : user_row * direct_save_row) (index : Z) : value :=
  VObj [("rank", VNum (index + 1));
        ("username", VStr (text_or (u_display_name (fst row))
                                   (u_username (fst row))));
        ("score", VNum (score (snd row)));
        ("lastUpdated", VNum (ds_updated_at (snd row)))].

(** [getLeaderboard(category = 'coins', limit = 10)].  On the tables of
    [schema.sql] the query names a column [game_saves] does not have and
    [db.all] calls back with the error. *)
Definition getLeaderboard (s : store) (category : string) (limit : Z)
    : promise (list value) :=
  match score_column category with
  | None => Reject (Error "Invalid leaderboard category")
  | Some (column, score) =>
      match s with
      | from_schema_sql _ => Reject (no_such_column column)
      | created_directly d =>
          let rows :=
            sql_limit limit
              (order_by_desc (fun r => score (snd r)) (join_users_saves d)) in
          Resolve (map_index (leaderboard_entry score) 0 rows)
      end
  end.

End Database.

(* ================================================================== *)
(** * database/routes: the routes written against [Database] *)

Section DatabaseRoutes.

Context {host : Host}.

(** The message of a rejection, [error.message]. *)
Definition message_of (e : error) : string :=
  match e with
  | Error m => m
  | TypeError => "TypeError"
  | SqliteError _ m => m
  end.

(** [router.post('/login', ...)] of the auth routes, after validation:
    [error.message || 'Login failed'] goes to the client with status 401. *)
Definition post_login (d : db) (now : datetime)
    (usernameOrEmail password : string) : db * response :=
  match authenticateUser d now usernameOrEmail password with
  | (d', Resolve user) =>
      let token := jwt_sign (match get user "id" with VNum n => n | _ => 0 end)
                            (to_string (get user "username")) in
      (d', json 200 (VObj [
             ("success", VBool true);
             ("message", VStr "Login successful");
             ("user", VObj [("id", get user "id");
                            ("username", get user "username");
                            ("email", get user "email");
                            ("display_name", get user "display_name")]);
             ("token", VStr token)]))
  | (d', Reject error) =>
      (d', json 401 (VObj [
             ("error", js_or (VStr (message_of error)) (VStr "Login failed"))]))
  end.


End DatabaseRoutes.

(* ================================================================== *)
(** * What the routes of routes/ call the engine through

    [routes/leaderboard.js] and [routes/game.js] start with [const
    database = require('../database/database')], and database.js ends
    with [module.exports = Database]: their [database] is the class.
    The methods are properties of the prototype, not of the class, so
    that [database.getLeaderboard(...)] there is a call of [undefined]
    and throws a TypeError, which the [catch] of the handler turns into
    its 500.  [an_instance s] is what the routes would hold had the
    module exported [new Database()], on the tables [s]. *)

Inductive database_module : Type :=
| the_class
| an_instance (s : store).

(** [module.exports] of database/database.js *)
Definition module_exports : database_module := the_class.

(** [await database.getLeaderboard(category, limit)]; a throw and a
    rejection reach the same [catch]. *)
Definition call_getLeaderboard (database : database_module)
    (category : string) (limit : Z) : promise (list value) :=
  match database with
  | the_class => Reject TypeError
  | an_instance s => getLeaderboard s category limit
  end.

(* ================================================================== *)
(** * routes/leaderboard.js

    The emoji that prefix the display names and badges in the source are
    left out of the string literals. *)

Section LeaderboardRoutes.

Context {host : Host}.

Definition validCategories : list string :=
  ["total_coins"; "farm_level"; "sustainability"].

Definition ratings : list string :=
  [EmptyString; "Beginner"; "Learning"; "Eco Enthusiast"; "Green Farmer";
   "Eco Master"].

(** [parseInt(req.query.limit) || 10]; the argument is what [parseInt]
    returned, [None] for [NaN]. *)
Definition limit_or_default (parsed : option Z) : Z :=
  match parsed with
  | Some n => if n =? 0 then 10 else n
  | None => 10
  end.

(** [entry.score.toLocaleString()]; [None] is the TypeError of a call on
    [undefined] or [null]. *)
Definition locale_string (v : value) : option string :=
  match v with
  | VUndefined | VNull => None
  | VNum n => Some (toLocaleString n)
  | _ => Some (to_string v)
  end.

(** The callback of [leaderboard.map] in [GET /:category]. *)
Definition format_entry (category : string) (entry : value) : option value :=
  let formatted (formattedScore : value) :=
    Some (VObj [("rank", get entry "rank_position");
                ("username", get entry "username");
                ("score", get entry "score");
                ("formattedScore", formattedScore);
                ("updatedAt", get entry "updated_at")]) in
  if String.eqb category "total_coins" then
    match locale_string (get entry "score") with
    | Some s => formatted (VStr (s ++ " coins"))
    | None => None
    end
  else if String.eqb category "farm_level" then
    formatted (VStr ("Level " ++ to_string (get entry "score")))
  else if String.eqb category "sustainability" then
    formatted (js_or (index ratings (get entry "score")) (VStr "Unknown"))
  else formatted (get entry "score").

(** [router.get('/:category')] *)
Definition get_category (database : database_module) (now_iso : string)
    (category : string) (parsed_limit : option Z) : response :=
  let limit := limit_or_default parsed_limit in
  if negb (existsb (String.eqb category) validCategories) then
    json 400 (VObj [("error", VStr "Invalid category");
                    ("validCategories", VArr (map VStr validCategories))])
  else if 100 <? limit then
    json 400 (error_body "Limit cannot exceed 100")
  else
    match call_getLeaderboard database category limit with
    | Reject _ => json 500 (error_body "Failed to fetch leaderboard")
    | Resolve leaderboard =>
        match map_throw (format_entry category) leaderboard with
        | None => json 500 (error_body "Failed to fetch leaderboard")
        | Some formattedLeaderboard =>
            json 200 (VObj [
              ("category", VStr category);
              ("displayName",
                 js_or (match formattedLeaderboard with
                        | e :: _ => get e "displayName"
                        | [] => VUndefined
                        end) (VStr "Leaderboard"));
              ("entries", VArr formattedLeaderboard);
              ("total", VNum (Z.of_nat (List.length formattedLeaderboard)));
              ("lastUpdated", VStr now_iso)])
        end
    end.

(** The callback of [data.map] in [GET /]. *)
Definition summary_entry (entry : value) : value :=
  VObj [("rank", get entry "rank_position");
        ("username", get entry "username");
        ("score", get entry "score");
        ("updatedAt", get entry "updated_at")].

(** The [for (const category of categories)] loop of [GET /]; [None] when
    an awaited [getLeaderboard] rejects. *)
Fixpoint summary_loop (database : database_module) (categories : list string)
    (leaderboards : props) : option props :=
  match categories with
  | [] => Some leaderboards
  | category :: rest =>
      match call_getLeaderboard database category 5 with
      | Reject _ => None
      | Resolve data =>
          summary_loop database rest
            (obj_set category (VArr (map summary_entry data)) leaderboards)
      end
  end.

Definition category_info (key name description : string) : value :=
  VObj [("key", VStr key); ("name", VStr name);
        ("description", VStr description)].

(** [router.get('/')] *)
Definition get_summary (database : database_module) (now_iso : string)
  : response :=
  match summary_loop database validCategories [] with
  | None => json 500 (error_body "Failed to fetch leaderboards")
  | Some leaderboards =>
      json 200 (VObj [
        ("message", VStr "Leaderboards summary");
        ("leaderboards", VObj leaderboards);
        ("categories", VArr [
           category_info "total_coins" "Coin Masters"
                         "Players with the most coins earned";
           category_info "farm_level" "Top Farmers" "Highest level farmers";
           category_info "sustainability" "Eco Champions"
                         "Most sustainable farming practices"]);
        ("lastUpdated", VStr now_iso)])
  end.

(** The callback of [sustainabilityLeaderboard.map]. *)
Definition detailed_entry (entry : value) : value :=
  let rating := js_or (index ratings (get entry "score")) (VStr "Unknown") in
  let badges :=
    ((if num_ge (get entry "score") 5 then [VStr "Eco Master"] else [])
     ++ (if num_ge (get entry "score") 4 then [VStr "Green Farmer"] else [])
     ++ (if num_ge (get entry "score") 3 then [VStr "Eco Enthusiast"] else [])
    )%list in
  VObj [("rank", get entry "rank_position");
        ("username", get entry "username");
        ("sustainabilityRating", rating);
        ("score", get entry "score");
        ("badges", VArr badges);
        ("updatedAt", get entry "updated_at")].

(** [router.get('/sustainability/detailed')] *)
Definition get_sustainability_detailed (database : database_module)
    (now_iso : string) (parsed_limit : option Z) : response :=
  let limit := limit_or_default parsed_limit in
  match call_getLeaderboard database "sustainability" limit with
  | Reject _ =>
      json 500
        (error_body "Failed to fetch detailed sustainability leaderboard")
  | Resolve sustainabilityLeaderboard =>
      let detailedEntries := map detailed_entry sustainabilityLeaderboard in
      json 200 (VObj [
        ("category", VStr "sustainability_detailed");
        ("displayName", VStr "Sustainability Hall of Fame");
        ("description", VStr "Champions of eco-friendly farming practices");
        ("entries", VArr detailedEntries);
        ("total", VNum (Z.of_nat (List.length detailedEntries)));
        ("lastUpdated", VStr now_iso)])
  end.

(** [fullLeaderboard.find(entry => entry.user_id === parseInt(userId))] *)
Definition find_user_entry (fullLeaderboard : list value) (userId : option Z)
  : option value :=
  find (fun entry => strict_eq_num (get entry "user_id") userId)
       fullLeaderboard.

Definition position_of (fullLeaderboard : list value) (userId : option Z)
  : value :=
  match find_user_entry fullLeaderboard userId with
  | Some userEntry =>
      VObj [("rank", get userEntry "rank_position");
            ("score", get userEntry "score");
            ("totalPlayers", VNum (Z.of_nat (List.length fullLeaderboard)))]
  | None =>
      VObj [("rank", VNull);
            ("score", VNum 0);
            ("totalPlayers", VNum (Z.of_nat (List.length fullLeaderboard)))]
  end.

(** The loop of [GET /user/:userId/position]. *)
Fixpoint position_loop (database : database_module) (userId : option Z)
    (categories : list string) (positions : props) : option props :=
  match categories with
  | [] => Some positions
  | category :: rest =>
      match call_getLeaderboard database category 1000 with
      | Reject _ => None
      | Resolve fullLeaderboard =>
          position_loop database userId rest
            (obj_set category (position_of fullLeaderboard userId) positions)
      end
  end.

(** [router.get('/user/:userId/position')]; [userId] is what
    [parseInt(req.params.userId)] returned. *)
Definition get_user_position (database : database_module) (now_iso : string)
    (userId : option Z) : response :=
  match position_loop database userId validCategories [] with
  | None => json 500 (error_body "Failed to fetch user leaderboard positions")
  | Some positions =>
      json 200 (VObj [
        ("userId", match userId with Some n => VNum n | None => VNull end);
        ("positions", VObj positions);
        ("lastUpdated", VStr now_iso)])
  end.

End LeaderboardRoutes.

(* ================================================================== *)
(** * Operations the routes call that are not among the repository's files

    [routes/game.js] calls [database.validateSession], [createSession],
    [addAchievement], [updateUserStats] and [updateLeaderboard]; the class
    [Database] defines none of them.  The first three are modelled from
    the specification (sections 3, 4.2, 4.4 and 7); a call of one of the
    last two is a call of [undefined] and throws. *)

(** The failure taxonomy of section 7 of the specification. *)
Inductive failure : Type :=
| DuplicateIdentity | NotFound | BadCredential | InvalidSession
| ExpiredSession | MalformedPayload | DuplicateAchievement
| UnknownCategory | InvalidArgument | StorageFailure.

Inductive outcome (A : Type) : Type :=
| Ok (x : A)
| Fail (f : failure).
Arguments Ok {A} x.
Arguments Fail {A} f.

(** [req.user], as [authenticateToken] builds it from the session. *)
Record req_user : Type := mkReqUser {
  ru_id : Z;
  ru_username : string;
  ru_email : string
}.

Module SessionManager.

(** A row of [user_sessions] (schema.sql). *)
Record session_row : Type := mkSession {
  s_id : Z;
  s_user_id : Z;
  s_token_hash : string;
  s_expires_at : datetime;
  s_created_at : datetime;
  s_last_used : datetime;
  s_ip_address : option string;
  s_user_agent : option string
}.

Record sessions : Type := mkSessions {
  rows : list session_row;
  seq_sessions : Z
}.


(** Modelled from the spec: [createSession(userId, tokenHash, expiresAt,
    ip, userAgent)] is missing; it stores the fingerprint and the expiry
    (section 4.2, "stores only its one-way fingerprint plus expiry"). *)
Definition createSession (ss : sessions) (now : datetime) (userId : Z)
    (tokenHash : string) (expiresAt : datetime)
    (ip userAgent : option string) : sessions :=
  let id := autoincrement (seq_sessions ss) (map s_id (rows ss)) in
  mkSessions (rows ss ++ [mkSession id userId tokenHash expiresAt now now
                                    ip userAgent]) id.



(** Modelled from the spec: [revokeSession(tokenHash)] is missing;
    section 4.2, "idempotent; removes ... the matching session". *)
Definition revokeSession (ss : sessions) (tokenHash : string) : sessions :=
  mkSessions (filter (fun s => negb (String.eqb (s_token_hash s) tokenHash))
                     (rows ss)) (seq_sessions ss).

Section WithHost.

Context {host : Host}.

(** Modelled from the spec: [issue(userId, ttl, originMeta)] of section
    4.2, with the random token an argument; the routes do the same with
    a fixed lifetime of seven days. *)
Definition issue (ss : sessions) (now : datetime) (userId : Z) (ttl : Z)
    (rawToken : string) (ip userAgent : option string) : sessions :=
  createSession ss now userId (sha256_hex rawToken) (now + ttl) ip userAgent.

(** The session the register and login routes create for the token they
    return: fingerprint of the token, expiry seven days from now. *)
Definition route_session (ss : sessions) (now : datetime) (userId : Z)
    (token : string) (ip userAgent : option string) : sessions :=
  let tokenHash := sha256_hex token in
  let expiresAt := now + 7 * 24 * 60 * 60 in
  createSession ss now userId tokenHash expiresAt ip userAgent.


End WithHost.

End SessionManager.

Module AchievementLedger.

(** A row of [achievements] (schema.sql). *)
Record achievement_row : Type := mkAchievement {
  a_id : Z;
  a_user_id : Z;
  a_achievement_type : string;
  a_achievement_name : string;
  a_description : option string;
  a_earned_at : datetime;
  a_points : Z
}.

Record ledger : Type := mkLedger {
  entries : list achievement_row;
  seq_achievements : Z
}.

Definition no_achievements : ledger := mkLedger [] 0.

(** Modelled from the spec: the pair (user, name) that is unique (section
    3). *)
Definition same_unlock (userId : Z) (name : string) (a : achievement_row)
  : bool :=
  (a_user_id a =? userId) && String.eqb (a_achievement_name a) name.

(** Modelled from the spec: [addAchievement(userId, {type, name,
    description, points})] is missing.  Section 4.4: "fails with
    DuplicateAchievement if (userId, name) already exists; this is a
    no-op-with-error". *)
Definition addAchievement (l : ledger) (now : datetime) (userId : Z)
    (type name : string) (description : option string) (points : Z)
  : ledger * outcome achievement_row :=
  if existsb (same_unlock userId name) (entries l)
  then (l, Fail DuplicateAchievement)
  else
    let id := autoincrement (seq_achievements l) (map a_id (entries l)) in
    let row := mkAchievement id userId type name description now points in
    (mkLedger (entries l ++ [row]) id, Ok row).

(** Modelled from the spec: [getUserAchievements(userId)] is missing;
    section 4.4, [listFor]. *)
Definition getUserAchievements (l : ledger) (userId : Z)
  : list achievement_row :=
  filter (fun a => a_user_id a =? userId) (entries l).

End AchievementLedger.

(* ================================================================== *)
(** * routes/game.js *)

Section GameRoutes.

Context {host : Host}.

(** [s.split(' ')] *)
Fixpoint split_space (s : string) : list string :=
  match s with
  | EmptyString => [EmptyString]
  | String c r =>
      if Ascii.eqb c " " then EmptyString :: split_space r
      else match split_space r with
           | w :: ws => String c w :: ws
           | [] => [String c EmptyString]
           end
  end.

(** [authHeader && authHeader.split(' ')[1]], and [None] when [!token]. *)
Definition bearer_token (authHeader : option string) : option string :=
  match authHeader with
  | None => None
  | Some h =>
      match nth_error (split_space h) 1 with
      | Some t => if String.eqb t EmptyString then None else Some t
      | None => None
      end
  end.


Definition sustainabilityScores : value :=
  VObj [("Eco Master", VNum 5); ("Green Farmer", VNum 4);
        ("Eco Enthusiast", VNum 3); ("Learning", VNum 2);
        ("Beginner", VNum 1)].

(** [sustainabilityScores[rating] || 1] (own properties only), the score
    the handler of POST /save computes for [updateLeaderboard]. *)
Definition sustainabilityScore (rating : value) : value :=
  js_or (get_key sustainabilityScores rating) (VNum 1).

(** [validateGameSave] *)
Definition validateGameSave (body : value) : bool :=
  is_object (get body "gameState") && is_array (get body "plots")
  && is_object (get body "camera").

(** [errors.array()] after [validateGameSave]; of the error objects of
    express-validator only [msg] is kept. *)
Definition validation_errors (body : value) : list value :=
  ((if is_object (get body "gameState") then []
    else [VObj [("msg", VStr "Game state must be an object")]])
   ++ (if is_array (get body "plots") then []
       else [VObj [("msg", VStr "Plots must be an array")]])
   ++ (if is_object (get body "camera") then []
       else [VObj [("msg", VStr "Camera must be an object")]]))%list.

(** [await database.saveGameState(userId, gameData)] *)
Definition call_saveGameState (database : database_module) (now : datetime)
    (userId : Z) (gameData : value) : database_module * promise value :=
  match database with
  | the_class => (the_class, Reject TypeError)
  | an_instance (from_schema_sql d) =>
      let (d', r) := saveGameState d now userId gameData in
      (an_instance (from_schema_sql d'), r)
  | an_instance (created_directly d) =>
      (database, direct_saveGameState d userId gameData)
  end.

(** The handler of [router.post('/save', authenticateToken,
    validateGameSave, ...)], for the [req.user] the middleware would set.
    After the save it calls [database.updateUserStats], which is not a
    method of [Database]: the call throws and the [catch] answers 500,
    with the save already written. *)
Definition post_save (database : database_module) (now : datetime)
    (now_iso : string) (user : req_user) (body : value)
  : database_module * response :=
  if negb (validateGameSave body) then
    (database, json 400 (VObj [("error", VStr "Validation failed");
                               ("details", VArr (validation_errors body))]))
  else
    let gameState := get body "gameState" in
    match call_saveGameState database now (ru_id user)
            (VObj [("gameState", gameState); ("plots", get body "plots");
                   ("camera", get body "camera");
                   ("saveName", get body "saveName")]) with
    | (database', Reject _) =>
        (database', json 500 (error_body "Failed to save game"))
    | (database', Resolve saveResult) =>
        if truthy (get gameState "level")
           && negb (is_undefined (get gameState "coins"))
        then (database', json 500 (error_body "Failed to save game"))
        else
          (database',
           json 200 (VObj [("message", VStr "Game saved successfully");
                           ("saveId", get saveResult "id");
                           ("timestamp", VStr now_iso)]))
    end.

End GameRoutes.

(* ================================================================== *)
(** * Notions the statements below use *)




(** The [game_saves] records of a user. *)
Definition saves_of (d : db) (userId : Z) : list game_save_row :=
  filter (fun r => gs_user_id r =? userId) (game_saves d).

(** The store a save leaves behind, for the texts it wrote. *)
Definition saved (d : db) (now : datetime) (userId : Z)
    (game_state plots_data camera_data : string) : db :=
  let lastID := autoincrement (seq_game_saves d) (map gs_id (game_saves d)) in
  mkDb (users d)
       (insert_or_replace_save (game_saves d)
          (mkSave lastID userId game_state plots_data camera_data now))
       (seq_users d) lastID.




(** The entries of a leaderboard response; none when there is no array. *)
Definition array_items (v : value) : list value :=
  match v with VArr xs => xs | _ => [] end.

Definition response_entries (r : response) : list value :=
  array_items (get (body r) "entries").

(** The entries of one category in the summary response. *)
Definition summary_entries (r : response) (category : string) : list value :=
  array_items (get (get (body r) "leaderboards") category).

(** The rank the position route reports for one category. *)
Definition reported_rank (r : response) (category : string) : value :=
  get (get (get (body r) "positions") category) "rank".

(** A rank that locates nobody. *)
Definition no_rank (v : value) : Prop := v = VUndefined \/ v = VNull.

(** What a promise of a list resolved with; nothing if it rejected. *)
Definition resolved (p : promise (list value)) : list value :=
  match p with Resolve es => es | Reject _ => [] end.

(** The names of the properties of an object. *)
Definition keys (v : value) : list string :=
  match v with VObj ps => map fst ps | _ => [] end.

(** An entry as [getLeaderboard] builds it: four properties, and none of
    the three the leaderboard routes read besides [username] and
    [score]. *)
Definition lacks_route_fields (entry : value) : Prop :=
  keys entry = ["rank"; "username"; "score"; "lastUpdated"]
  /\ get entry "rank_position" = VUndefined
  /\ get entry "user_id" = VUndefined
  /\ get entry "updated_at" = VUndefined.

(** The scores and ranks of a list of leaderboard entries. *)
Definition scores_of (es : list value) : list value :=
  map (fun e => get e "score") es.

Definition ranks_of (es : list value) : list value :=
  map (fun e => get e "rank") es.

(** The categories [getLeaderboard] recognizes. *)
Definition recognized (category : string) : Prop :=
  category = "coins" \/ category = "level" \/ category = "sustainability".

(* ================================================================== *)
(** * More of database/database.js *)

(** ** createTablesDirectly: the completion counter

    [tables.forEach] starts one [db.run] per statement; the callbacks
    arrive in some order, each with the index of its statement and the
    error of the statement or [null].  The state is the pair of counters
    the callbacks share; the trace records what they log and which of
    [resolve] and [reject] they call. *)

Inductive setup_event : Type :=
| LogFailed (table : nat) (e : error)
| CallReject (e : error)
| LogCreated (table : nat)
| LogAllCreated
| CallResolve.

Record setup : Type := mkSetup {
  completed : nat;
  hasError : bool;
  trace : list setup_event
}.

(** The callback of [this.db.run(sql, (err) => ...)]. *)
Definition table_callback (tables_length : nat) (st : setup) (index : nat)
    (err : option error) : setup :=
  match err, hasError st with
  | Some e, false =>
      mkSetup (completed st) true
              (trace st ++ [LogFailed (index + 1) e; CallReject e])
  | _, _ =>
      let completed' := S (completed st) in
      if Nat.eqb completed' tables_length && negb (hasError st)
      then mkSetup completed' (hasError st)
                   (trace st ++ [LogCreated (index + 1); LogAllCreated;
                                 CallResolve])
      else mkSetup completed' (hasError st)
                   (trace st ++ [LogCreated (index + 1)])
  end.

(** [createTablesDirectly(resolve, reject)] on the callbacks in the order
    they arrive. *)
Definition createTablesDirectly (tables_length : nat)
    (callbacks : list (nat * option error)) : setup :=
  fold_left (fun st cb => table_callback tables_length st (fst cb) (snd cb))
            callbacks (mkSetup 0 false []).

(** The calls of [resolve] and [reject] in a trace. *)
Definition settles (t : list setup_event) : list setup_event :=
  filter (fun ev => match ev with
                    | CallReject _ | CallResolve => true
                    | _ => false
                    end) t.

(** The tables a trace logs as created. *)
Definition logged_created (t : list setup_event) : list nat :=
  flat_map (fun ev => match ev with LogCreated i => [i] | _ => [] end) t.

(** The first error among the callbacks, in the order they arrive. *)
Fixpoint first_error (callbacks : list (nat * option error)) : option error :=
  match callbacks with
  | [] => None
  | (_, Some e) :: _ => Some e
  | (_, None) :: r => first_error r
  end.

(* ================================================================== *)
(** * database/routes: more of the routes written against [Database] *)

Section MoreDatabaseRoutes.

Context {host : Host}.


End MoreDatabaseRoutes.

(** [req.user] as [jwt.verify] decodes it: the payload the auth routes
    signed. *)
Record jwt_user : Type := mkJwtUser {
  jwt_userId : Z;
  jwt_username : string
}.



(** [router.get('/profile', ...)] of the users routes *)
Definition users_get_profile (d : db) (user : jwt_user) : response :=
  match loadGameState d (jwt_userId user) with
  | Reject _ => json 500 (error_body "Failed to get profile")
  | Resolve gameState =>
      json 200 (VObj [
        ("success", VBool true);
        ("user", VObj [("id", VNum (jwt_userId user));
                       ("username", VStr (jwt_username user))]);
        ("gameProgress",
           if truthy gameState then get gameState "metadata" else VNull)])
  end.

Definition default_stats : value :=
  VObj [("level", VNum 1); ("coins", VNum 100); ("totalPlanted", VNum 0);
        ("totalHarvested", VNum 0); ("sustainabilityScore", VNum 0)].

(** [router.get('/stats', ...)] of the users routes *)
Definition users_get_stats (d : db) (user : jwt_user) : response :=
  match loadGameState d (jwt_userId user) with
  | Reject _ => json 500 (error_body "Failed to get user statistics")
  | Resolve gameState =>
      if negb (truthy gameState) then
        json 200 (VObj [("success", VBool true); ("stats", default_stats)])
      else
        json 200 (VObj [("success", VBool true);
                        ("stats", get gameState "metadata")])
  end.

(* ================================================================== *)
(** * js/api-client.js: class GameAPI *)

(** [{ ...o }] onto the properties [acc]: each own property of [o] set in
    turn. *)
Definition set_all_props (o acc : props) : props :=
  fold_left (fun a p => obj_set (fst p) (snd p) a) o acc.


Module Client.

(** What a method of the client rejects with. *)
Inductive rejection : Type :=
| Thrown (message : string)     (* [new Error(message)] *)
| FetchFailed                   (* [fetch] rejected: no response *)
| NotJson                       (* [response.json()] rejected *)
| PropertyOfNullish.            (* a property read on [null]/[undefined] *)

Inductive settled : Type :=
| Returned (data : value)
| Rejected (r : rejection).

(** The instance: [this.baseURL], [this.token] and the item
    'zonorg_token' of [localStorage] ([None] when there is none). *)
Record client : Type := mkClient {
  baseURL : string;
  token : value;
  stored_token : option string
}.

(** [new GameAPI()] on a page of [origin]. *)
Definition new_GameAPI (origin : string) (item : option string) : client :=
  mkClient (origin ++ "/api")
           (match item with Some s => VStr s | None => VNull end)
           item.

(** The [options] the methods pass to [request]: [method], [body] and
    [headers], each there or not. *)
Record options : Type := mkOptions {
  o_method : option string;
  o_body : option string;
  o_headers : option props
}.

Definition no_options : options := mkOptions None None None.

(** The arguments of [fetch(url, config)]. *)
Record fetch_call : Type := mkFetchCall {
  f_url : string;
  f_headers : props;
  f_method : option string;
  f_body : option string
}.

(** What [fetch] and [response.json()] give: no response at all, or
    [response.ok], [response.status] and the parsed body ([None] when the
    body is not JSON). *)
Inductive fetched : Type :=
| NoResponse
| Response (ok : bool) (status : Z) (data : option value).

(** [config] of [request]: [{ headers: { 'Content-Type': ..., 
    ...options.headers }, ...options }], then the Authorization header
    when [this.token] is truthy.  The spread of [options] puts its own
    [headers] in place of the merged ones. *)
Definition config_of (c : client) (endpoint : string) (o : options)
  : fetch_call :=
  let merged :=
    set_all_props
      (match o_headers o with Some h => h | None => [] end)
      [("Content-Type", VStr "application/json")] in
  let headers := match o_headers o with Some h => h | None => merged end in
  let headers :=
    if truthy (token c)
    then obj_set "Authorization" (VStr ("Bearer " ++ to_string (token c)))
                 headers
    else headers in
  mkFetchCall (baseURL c ++ endpoint) headers (o_method o) (o_body o).

(** [request(endpoint, options = {})] against a [fetch]. *)
Definition request (c : client) (fetch : fetch_call -> fetched)
    (endpoint : string) (o : options) : settled :=
  match fetch (config_of c endpoint o) with
  | NoResponse => Rejected FetchFailed
  | Response _ _ None => Rejected NotJson
  | Response ok st (Some data) =>
      if negb ok then
        if nullish data then Rejected PropertyOfNullish
        else Rejected (Thrown (to_string
               (js_or (get data "error") (VStr ("HTTP " ++ string_of_Z st)))))
      else Returned data
  end.

Definition post (payload : value) : options :=
  mkOptions (Some "POST") (JSON.stringify payload) None.

(** The body of [register] and [login] after the request. *)
Definition keep_token (c : client) (r : settled) : client * settled :=
  match r with
  | Rejected e => (c, Rejected e)
  | Returned response =>
      if nullish response then (c, Rejected PropertyOfNullish)
      else if truthy (get response "token") then
        (mkClient (baseURL c) (get response "token")
                  (Some (to_string (get response "token"))),
         Returned response)
      else (c, Returned response)
  end.

Definition forget_token (c : client) : client :=
  mkClient (baseURL c) VNull None.

(** [register(userData)] *)
Definition register (c : client) (fetch : fetch_call -> fetched)
    (userData : value) : client * settled :=
  keep_token c (request c fetch "/auth/register" (post userData)).

(** [login(credentials)] *)
Definition login (c : client) (fetch : fetch_call -> fetched)
    (credentials : value) : client * settled :=
  keep_token c (request c fetch "/auth/login" (post credentials)).

(** [logout()]: the request, its failure caught, and the [finally]. *)
Definition logout (c : client) (fetch : fetch_call -> fetched)
  : client * settled :=
  match request c fetch "/auth/logout" (mkOptions (Some "POST") None None) with
  | _ => (forget_token c, Returned VUndefined)
  end.

(** [verifyToken()] *)
Definition verifyToken (c : client) (fetch : fetch_call -> fetched)
  : client * settled :=
  match request c fetch "/auth/verify" no_options with
  | Returned data => (c, Returned data)
  | Rejected e => (forget_token c, Rejected e)
  end.

(** [isLoggedIn()] *)
Definition isLoggedIn (c : client) : bool := truthy (token c).

(** The methods that only forward to [request]. *)
Inductive call : Type :=
| GetProfile
| SaveGame (gameData : value)
| LoadGame
| AddAchievement (achievementData : value)
| GetAchievements
| GetStats
| GetLeaderboard (category : value) (limit : value)
| GetAllLeaderboards
| GetSustainabilityLeaderboard.

Definition forward (c : client) (fetch : fetch_call -> fetched) (m : call)
  : settled :=
  match m with
  | GetProfile => request c fetch "/auth/profile" no_options
  | SaveGame gameData => request c fetch "/game/save" (post gameData)
  | LoadGame => request c fetch "/game/load" no_options
  | AddAchievement data => request c fetch "/game/achievement" (post data)
  | GetAchievements => request c fetch "/game/achievements" no_options
  | GetStats => request c fetch "/game/stats" no_options
  | GetLeaderboard category limit =>
      (* [limit = 10]: the default stands in for [undefined] *)
      let limit := if is_undefined limit then VNum 10 else limit in
      request c fetch
        ("/leaderboard/" ++ to_string category ++ "?limit=" ++ to_string limit)
        no_options
  | GetAllLeaderboards => request c fetch "/leaderboard" no_options
  | GetSustainabilityLeaderboard =>
      request c fetch "/leaderboard/sustainability/detailed" no_options
  end.

(** A use of the client: one method against the [fetch] of the moment. *)
Inductive use : Type :=
| Register (userData : value)
| Login (credentials : value)
| Logout
| VerifyToken
| Forward (m : call).

Definition step (c : client) (u : use * (fetch_call -> fetched)) : client :=
  match u with
  | (Register userData, fetch) => fst (register c fetch userData)
  | (Login credentials, fetch) => fst (login c fetch credentials)
  | (Logout, fetch) => fst (logout c fetch)
  | (VerifyToken, fetch) => fst (verifyToken c fetch)
  | (Forward _, _) => c
  end.

Definition run (c : client) (uses : list (use * (fetch_call -> fetched)))
  : client :=
  fold_left step uses c.

(** The token in memory and the item in [localStorage] agree: there is no
    item and the token is [null], or the item is the token as a string. *)
Definition in_sync (c : client) : Prop :=
  match stored_token c with
  | None => token c = VNull
  | Some s => to_string (token c) = s /\ nullish (token c) = false
  end.

(** The Authorization header of a call. *)
Definition authorization (f : fetch_call) : value :=
  get (VObj (f_headers f)) "Authorization".

(** [!!item] for an item of [localStorage]: there, and not empty. *)
Definition has_item (item : option string) : bool :=
  match item with
  | Some s => negb (String.eqb s EmptyString)
  | None => false
  end.

(** [item ? JSON.parse(item) : null]; [parse] is [JSON.parse], giving the
    value or the message of the error it throws. *)
Definition parse_item (parse : string -> string + value)
    (item : option string) : string + value :=
  match item with
  | Some s => if negb (String.eqb s EmptyString) then parse s else inr VNull
  | None => inr VNull
  end.

(** [migrateLocalStorageData()] on the items 'zonorgUsers', 'zonorgUser'
    and 'farmGameSave' of [localStorage]. *)
Definition migrateLocalStorageData (parse : string -> string + value)
    (localUsers localUser farmGameSave : option string) : value :=
  if negb (has_item localUsers) && negb (has_item localUser)
     && negb (has_item farmGameSave)
  then VObj [("migrated", VBool false);
             ("reason", VStr "No local data found")]
  else
    let failed (message : string) :=
      VObj [("migrated", VBool false); ("error", VStr message)] in
    match parse_item parse localUsers with
    | inl message => failed message
    | inr users =>
        match parse_item parse localUser with
        | inl message => failed message
        | inr currentUser =>
            match parse_item parse farmGameSave with
            | inl message => failed message
            | inr gameSave =>
                VObj [("migrated", VBool false);
                      ("migrationData", VObj [
                         ("hasUsers", VBool (has_item localUsers));
                         ("hasCurrentUser", VBool (has_item localUser));
                         ("hasGameSave", VBool (has_item farmGameSave));
                         ("users", users);
                         ("currentUser", currentUser);
                         ("gameSave", gameSave)])]
            end
        end
    end.

End Client.

(* ================================================================== *)
(** * More notions the statements use *)

(** A string without a space. *)
Fixpoint no_space (s : string) : bool :=
  match s with
  | EmptyString => true
  | String c r => negb (Ascii.eqb c " ") && no_space r
  end.

(** The five sustainability ratings. *)
Definition rating_names : list string :=
  ["Beginner"; "Learning"; "Eco Enthusiast"; "Green Farmer"; "Eco Master"].

(** The names every object inherits from [Object.prototype]: a lookup of
    one of them in [sustainabilityScores] finds the inherited property. *)
Definition inherited_names : list string :=
  ["constructor"; "__proto__"; "hasOwnProperty"; "isPrototypeOf";
   "propertyIsEnumerable"; "toLocaleString"; "toString"; "valueOf";
   "__defineGetter__"; "__defineSetter__"; "__lookupGetter__";
   "__lookupSetter__"].

(** The rows of the leaderboard query a limit leaves out. *)
Definition sql_beyond {R : Type} (n : Z) (l : list R) : list R :=
  if n <? 0 then [] else skipn (Z.to_nat n) l.

(* ================================================================== *)
(** * Inputs used in the examples below *)

(** A stand-in for the library functions: the hash of a password is the
    password behind a fixed prefix, the digest of a token is the token
    behind a fixed prefix. *)
Definition test_host : Host := {|
  bcrypt_hashSync := fun password _ => "$2b$10$" ++ password;
  bcrypt_compareSync := fun password hash =>
    String.eqb ("$2b$10$" ++ password) hash;
  sha256_hex := fun token => "sha256:" ++ token;
  toLocaleString := string_of_Z;
  jwt_sign := fun _ username => "jwt:" ++ username
|}.

(** Directly created tables: three users with rows of 250, 900 and 250
    coins. *)
Definition three_farmers : direct_db :=
  mkDirectDb [mkUser 1 "ann" "ann@x.com" "h" None None true;
              mkUser 2 "bob" "bob@x.com" "h" (Some "Bob") None true;
              mkUser 3 "cy" "cy@x.com" "h" (Some EmptyString) None false]
             [mkDirectSave 1 1 "{}" 2 250 1 10;
              mkDirectSave 2 2 "{}" 5 900 4 20;
              mkDirectSave 3 3 "{}" 1 250 0 30].

(** The tables of schema.sql with two users, the first with a save. *)
Definition two_farmers_db : db :=
  mkDb [mkUser 1 "ann" "ann@x.com" "h" None None true;
        mkUser 2 "bob" "bob@x.com" "h" (Some "Bob") None true]
       [mkSave 1 1 "{}" "[]" "{}" 10]
       2 1.

(** Directly created tables after a registration: a user, no row in
    [game_saves]. *)
Definition direct_farmer1 : direct_db :=
  mkDirectDb [mkUser 1 "farmer1" "f1@x.com" "$2b$10$pw123456"
                     (Some "farmer1") None true] [].

(** The save of section 8 of the specification. *)
Definition scenario_state : value :=
  VObj [("level", VNum 3); ("coins", VNum 500); ("xp", VNum 250);
        ("sustainabilityRating", VStr "Learning")].

Definition scenario_payload : value :=
  VObj [("gameState", scenario_state); ("plots", VArr []);
        ("camera", VObj [("x", VNum 0); ("y", VNum 0)])].

(** The store after [createUser("farmer1", "f1@x.com", "pw123456")]. *)
Definition farmer1_db : db :=
  fst (@createUser test_host empty_db "farmer1" "f1@x.com" "pw123456" None).

Definition farmer1 : req_user := mkReqUser 1 "farmer1" "f1@x.com".

(* ================================================================== *)
(** * Proofs *)

Local Open Scope list_scope.

(** ** JSON: what is written is read back *)

Module JSONFacts.

Import JSON.
Local Open Scope char_scope.


Lemma delim_skip_ws s : delim s -> skip_ws s = s.
Proof.
  destruct s as [|c r]; simpl; [reflexivity|].
  intros [-> | [-> | ->]]; reflexivity.
Qed.




































(** What the parser returns is a JSON value: nothing undefined in it, no
    name twice in an object. *)

Lemma existsb_obj_set k k' v acc :
  existsb (String.eqb k') (map fst (obj_set k v acc))
  = (existsb (String.eqb k') (map fst acc) || String.eqb k' k)%bool.
Proof.
  induction acc as [|[k0 v0] acc IH]; simpl.
  - rewrite orb_false_r. reflexivity.
  - destruct (String.eqb_spec k k0) as [-> | Hne]; simpl.
    + destruct (String.eqb k' k0); simpl; [reflexivity|].
      rewrite orb_false_r. reflexivity.
    + rewrite IH. rewrite orb_assoc. reflexivity.
Qed.

Lemma nodupb_obj_set k v acc :
  nodupb (map fst acc) = true -> nodupb (map fst (obj_set k v acc)) = true.
Proof.
  induction acc as [|[k0 v0] acc IH]; simpl; [reflexivity|].
  intros H. apply andb_true_iff in H as [H0 H1].
  destruct (String.eqb_spec k k0) as [-> | Hne]; simpl.
  - rewrite H0, H1. reflexivity.
  - rewrite (IH H1), andb_true_r, existsb_obj_set.
    apply negb_true_iff in H0. rewrite H0. simpl.
    apply negb_true_iff. apply String.eqb_neq. congruence.
Qed.

Lemma forallb_obj_set k v acc :
  is_json v = true ->
  forallb (fun p => is_json (snd p)) acc = true ->
  forallb (fun p => is_json (snd p)) (obj_set k v acc) = true.
Proof.
  intros Hv. induction acc as [|[k0 v0] acc IH]; simpl.
  - rewrite Hv. reflexivity.
  - intros H. apply andb_true_iff in H as [H0 H1].
    destruct (String.eqb k k0); simpl.
    + rewrite Hv, H1. reflexivity.
    + rewrite H0, (IH H1). reflexivity.
Qed.

Lemma parse_elems_json pv n : yields_json pv ->
  forall s acc xs r,
    forallb is_json acc = true ->
    parse_elems pv n s acc = Some (xs, r) -> forallb is_json xs = true.
Proof.
  intros Hpv. induction n as [|n IH]; intros s acc xs r Hacc; simpl;
    [discriminate|].
  destruct (skip_ws s) as [|c s']; [discriminate|].
  destruct (c =? "]").
  - intros H. inversion H; subst.
    rewrite forallb_forall in *. intros x Hx. apply Hacc, in_rev, Hx.
  - destruct (c =? ","); [|discriminate].
    destruct (pv s') as [[v r']|] eqn:E; [|discriminate].
    apply IH. simpl. rewrite (Hpv _ _ _ E), Hacc. reflexivity.
Qed.

Lemma parse_member_json pv : yields_json pv ->
  forall s acc acc' r,
    is_json (VObj acc) = true ->
    parse_member pv s acc = Some (acc', r) -> is_json (VObj acc') = true.
Proof.
  intros Hpv s acc acc' r Hacc. unfold parse_member.
  destruct (skip_ws s) as [|q s1]; [discriminate|].
  destruct (q =? "034"); [|discriminate].
  destruct (parse_chars s1) as [[k s2]|]; [|discriminate].
  destruct (skip_ws s2) as [|c s3]; [discriminate|].
  destruct (c =? ":"); [|discriminate].
  destruct (pv s3) as [[v s4]|] eqn:E; [|discriminate].
  intros H. inversion H; subst. cbn [is_json] in *.
  apply andb_true_iff in Hacc as [Hj Hn].
  rewrite (forallb_obj_set k v acc (Hpv _ _ _ E) Hj), (nodupb_obj_set k v acc Hn).
  reflexivity.
Qed.

Lemma parse_members_json pv n : yields_json pv ->
  forall s acc ps r,
    is_json (VObj acc) = true ->
    parse_members pv n s acc = Some (ps, r) -> is_json (VObj ps) = true.
Proof.
  intros Hpv. induction n as [|n IH]; intros s acc ps r Hacc; simpl;
    [discriminate|].
  destruct (skip_ws s) as [|c s']; [discriminate|].
  destruct (c =? "}").
  - intros H. inversion H; subst. exact Hacc.
  - destruct (c =? ","); [|discriminate].
    destruct (parse_member pv s' acc) as [[acc' r']|] eqn:E; [|discriminate].
    apply IH. exact (parse_member_json pv Hpv _ _ _ _ Hacc E).
Qed.

Lemma parse_number_json s v r : parse_number s = Some (v, r) -> is_json v = true.
Proof.
  unfold parse_number. destruct s as [|c s']; [discriminate|].
  destruct (c =? "-").
  - destruct (read_uint s') as [u r']. destruct (int_digits_ok u); [|discriminate].
    intros H. inversion H. reflexivity.
  - destruct (read_uint (c :: s')) as [u r'].
    destruct (int_digits_ok u); [|discriminate].
    intros H. inversion H. reflexivity.
Qed.

Lemma parse_step_json pv : yields_json pv -> yields_json (parse_step pv).
Proof.
  intros Hpv s v r. unfold parse_step.
  destruct (skip_ws s) as [|c s1]; [discriminate|].
  destruct (c =? "n").
  { destruct (starts_with _ s1); [|discriminate]. intros H; inversion H; reflexivity. }
  destruct (c =? "t").
  { destruct (starts_with _ s1); [|discriminate]. intros H; inversion H; reflexivity. }
  destruct (c =? "f").
  { destruct (starts_with _ s1); [|discriminate]. intros H; inversion H; reflexivity. }
  destruct (c =? "034").
  { destruct (parse_chars s1) as [[t r']|]; [|discriminate].
    intros H; inversion H; reflexivity. }
  destruct (c =? "[").
  { destruct (skip_ws s1) as [|c1 s2]; [discriminate|].
    destruct (c1 =? "]"); [intros H; inversion H; reflexivity|].
    destruct (pv s1) as [[x r']|] eqn:E; [|discriminate].
    destruct (parse_elems pv _ r' [x]) as [[xs r'']|] eqn:E'; [|discriminate].
    intros H. inversion H; subst. cbn [is_json].
    apply (parse_elems_json pv _ Hpv _ [x]) in E'; [exact E'|].
    simpl. rewrite (Hpv _ _ _ E). reflexivity. }
  destruct (c =? "{").
  { destruct (skip_ws s1) as [|c1 s2]; [discriminate|].
    destruct (c1 =? "}"); [intros H; inversion H; reflexivity|].
    destruct (parse_member pv s1 []) as [[acc r']|] eqn:E; [|discriminate].
    destruct (parse_members pv _ r' acc) as [[ps r'']|] eqn:E'; [|discriminate].
    intros H. inversion H; subst.
    apply (parse_members_json pv _ Hpv _ acc) in E'; [exact E'|].
    apply (parse_member_json pv Hpv _ []) in E; [exact E | reflexivity]. }
  apply parse_number_json.
Qed.

Lemma parse_value_json fuel : yields_json (parse_value fuel).
Proof.
  induction fuel as [|f IH]; [intros s v r; discriminate|].
  exact (parse_step_json _ IH).
Qed.

(** [JSON.parse] returns JSON values only. *)
Lemma parse_is_json text v : parse text = Some v -> is_json v = true.
Proof.
  unfold parse.
  destruct (parse_value _ (chars text)) as [[x r]|] eqn:E; [|discriminate].
  destruct (skip_ws r); [|discriminate].
  intros H. inversion H; subst. exact (parse_value_json _ _ _ _ E).
Qed.

End JSONFacts.

(** ** The store: AUTOINCREMENT, ORDER BY, LIMIT *)

Lemma autoincrement_fresh seq ids i :
  In i ids -> i < autoincrement seq ids.
Proof.
  unfold autoincrement. induction ids as [|j ids IH]; simpl; [tauto|].
  intros [-> | Hin]; [lia|]. specialize (IH Hin). lia.
Qed.

Lemma insert_desc_sorted {R} (key : R -> Z) x l :
  StronglySorted (fun a b => key b <= key a) l ->
  StronglySorted (fun a b => key b <= key a) (insert_desc key x l).
Proof.
  induction 1 as [|y l Hs IH Hy]; simpl.
  - repeat constructor.
  - destruct (Z.leb_spec (key y) (key x)).
    + constructor; [constructor; assumption|].
      constructor; [lia|].
      rewrite Forall_forall in *. intros z Hz. specialize (Hy z Hz). lia.
    + constructor; [exact IH|].
      clear IH Hs. induction l as [|z l IHl]; simpl.
      * repeat constructor. lia.
      * inversion Hy; subst.
        destruct (Z.leb_spec (key z) (key x)); repeat constructor; auto; lia.
Qed.

Lemma order_by_desc_sorted {R} (key : R -> Z) l :
  StronglySorted (fun a b => key b <= key a) (order_by_desc key l).
Proof.
  induction l; simpl; [constructor | apply insert_desc_sorted; assumption].
Qed.

Lemma in_firstn {A} n (l : list A) x : In x (firstn n l) -> In x l.
Proof.
  revert n. induction l as [|y l IH]; intros [|n]; simpl; try tauto.
  intros [-> | H]; [left; reflexivity | right; eapply IH; exact H].
Qed.

Lemma firstn_sorted {A} (le : A -> A -> Prop) n l :
  StronglySorted le l -> StronglySorted le (firstn n l).
Proof.
  intros H. revert n. induction H as [|x l Hs IH Hx]; intros [|n]; simpl;
    try constructor; auto.
  rewrite Forall_forall in *. intros y Hy. apply Hx.
  eapply in_firstn; eauto.
Qed.

Lemma sql_limit_sorted {A} (le : A -> A -> Prop) n l :
  StronglySorted le l -> StronglySorted le (sql_limit n l).
Proof.
  unfold sql_limit. destruct (n <? 0); [auto | apply firstn_sorted].
Qed.


(** ** saveGameState and loadGameState *)

Lemma js_or_defined a b : is_undefined b = false -> is_undefined (js_or a b) = false.
Proof.
  intros Hb. unfold js_or. destruct (truthy a) eqn:E; [|exact Hb].
  destruct a; try reflexivity; discriminate.
Qed.

Lemma stringify_defined v :
  is_undefined v = false -> JSON.stringify v <> None.
Proof. unfold JSON.stringify. intros ->. discriminate. Qed.

(** No row collides with a new row on its primary key. *)
Lemma insert_or_replace_new rows seq row :
  gs_id row = autoincrement seq (map gs_id rows) ->
  insert_or_replace_save rows row = rows ++ [row].
Proof.
  intros Hid. unfold insert_or_replace_save. f_equal.
  apply forallb_filter_id. apply forallb_forall. intros r Hr.
  pose proof (autoincrement_fresh seq (map gs_id rows) (gs_id r)
                (in_map gs_id _ _ Hr)).
  apply negb_true_iff. apply Z.eqb_neq. lia.
Qed.

(** A save of an object always writes a new record. *)
Lemma saveGameState_object d now userId ps :
  exists game_state plots_data camera_data,
    saveGameState d now userId (VObj ps)
    = (saved d now userId game_state plots_data camera_data,
       Resolve (VObj [("id", VNum (autoincrement (seq_game_saves d)
                                     (map gs_id (game_saves d))))]))
    /\ JSON.stringify (js_or (get (VObj ps) "gameState") (VObj []))
       = Some game_state
    /\ JSON.stringify (js_or (get (VObj ps) "plots") (VArr [])) = Some plots_data
    /\ JSON.stringify (js_or (get (VObj ps) "camera") default_camera)
       = Some camera_data.
Proof.
  unfold saveGameState. cbn [nullish].
  destruct (JSON.stringify (js_or (get (VObj ps) "gameState") (VObj []))) as [a|] eqn:Ea;
    [|exfalso; revert Ea; apply stringify_defined, js_or_defined; reflexivity].
  destruct (JSON.stringify (js_or (get (VObj ps) "plots") (VArr []))) as [b|] eqn:Eb;
    [|exfalso; revert Eb; apply stringify_defined, js_or_defined; reflexivity].
  destruct (JSON.stringify (js_or (get (VObj ps) "camera") default_camera)) as [c|] eqn:Ec;
    [|exfalso; revert Ec; apply stringify_defined, js_or_defined; reflexivity].
  exists a, b, c. auto.
Qed.

Lemma saves_of_saved d now userId a b c :
  saves_of (saved d now userId a b c) userId
  = saves_of d userId
    ++ [mkSave (autoincrement (seq_game_saves d) (map gs_id (game_saves d)))
               userId a b c now].
Proof.
  unfold saves_of, saved. cbn [game_saves].
  rewrite (insert_or_replace_new _ (seq_game_saves d)) by reflexivity.
  rewrite filter_app. cbn [filter gs_user_id]. rewrite Z.eqb_refl. reflexivity.
Qed.

(** Every save adds one record to those of the user and keeps the others. *)
Lemma saveGameState_appends d now userId ps :
  List.length (saves_of (fst (saveGameState d now userId (VObj ps))) userId)
  = S (List.length (saves_of d userId))
  /\ forall r, In r (game_saves d) ->
               In r (game_saves (fst (saveGameState d now userId (VObj ps)))).
Proof.
  destruct (saveGameState_object d now userId ps) as (a & b & c & -> & _).
  cbn [fst]. split.
  - rewrite saves_of_saved, length_app. simpl. lia.
  - intros r Hr. unfold saved. cbn [game_saves].
    rewrite (insert_or_replace_new _ (seq_game_saves d)) by reflexivity.
    apply in_or_app. left. exact Hr.
Qed.






(** C2.  The second [saveGameState] of a user does not replace the record
    of the first: the user has two records afterwards, the first among
    them with its fields as they were. *)
Theorem C2_second_save_appends :
  let d1 := fst (saveGameState farmer1_db 100 1 scenario_payload) in
  let d2 := fst (saveGameState d1 200 1
                   (VObj [("gameState", VObj [("level", VNum 4)]);
                          ("plots", VArr []); ("camera", VObj [])])) in
  List.length (saves_of d1 1) = 1%nat
  /\ List.length (saves_of d2 1) = 2%nat
  /\ (forall r, In r (saves_of d1 1) -> In r (saves_of d2 1))
  /\ map gs_updated_at (saves_of d2 1) = [100; 200].
Proof.
  cbv zeta. repeat split; try (vm_compute; reflexivity).
  intros r Hr. vm_compute in Hr. destruct Hr as [<- | []].
  vm_compute. left. reflexivity.
Qed.

(** ** The save route and the leaderboard *)

(** [getLeaderboard] knows no category "total_coins" or "farm_level",
    on whatever tables. *)
Lemma getLeaderboard_route_categories s limit :
  getLeaderboard s "total_coins" limit
  = Reject (Error "Invalid leaderboard category")
  /\ getLeaderboard s "farm_level" limit
     = Reject (Error "Invalid leaderboard category").
Proof. split; reflexivity. Qed.

(** The ordinal of a sustainability rating, as the save route computes it. *)
Lemma sustainabilityScore_table :
  sustainabilityScore (VStr "Beginner") = VNum 1
  /\ sustainabilityScore (VStr "Learning") = VNum 2
  /\ sustainabilityScore (VStr "Eco Enthusiast") = VNum 3
  /\ sustainabilityScore (VStr "Green Farmer") = VNum 4
  /\ sustainabilityScore (VStr "Eco Master") = VNum 5
  /\ sustainabilityScore VUndefined = VNum 1.
Proof. repeat split; reflexivity. Qed.

(** On the tables of schema.sql [getLeaderboard] resolves for no
    category. *)
Lemma getLeaderboard_on_schema_sql d category limit :
  exists e, getLeaderboard (from_schema_sql d) category limit = Reject e.
Proof.
  unfold getLeaderboard.
  destruct (score_column category) as [[column score]|]; eexists; reflexivity.
Qed.

(** As mounted, the save route writes nothing. *)
Lemma post_save_on_the_class now now_iso user req_body :
  fst (post_save the_class now now_iso user req_body) = the_class
  /\ (status (snd (post_save the_class now now_iso user req_body)) = 400
      \/ status (snd (post_save the_class now now_iso user req_body)) = 500).
Proof.
  unfold post_save. destruct (validateGameSave req_body); cbn; auto.
Qed.

(** C3.  The scenario save reaches no leaderboard.  As [routes/game.js]
    requires the engine, the handler of POST /save answers 500 and
    writes nothing.  Were [database] an instance on the tables of
    schema.sql, the save would be written and the handler would answer
    500 all the same, at the call of [updateUserStats]; after it
    [getLeaderboard("total_coins", 10)] rejects its category and
    [getLeaderboard("coins", 10)] and [getLeaderboard("sustainability",
    10)] reject with "no such column".  On directly created tables the
    save is rejected and the leaderboards that resolve are empty.  The
    ordinal of 'Learning' is 2, as the claim says. *)
Theorem C3_saved_scores_not_on_leaderboard :
  let iso := "2024-01-01T00:00:00.000Z" in
  post_save module_exports 100 iso farmer1 scenario_payload
  = (the_class, json 500 (error_body "Failed to save game"))
  /\ (exists d',
        post_save (an_instance (from_schema_sql farmer1_db)) 100 iso farmer1
                  scenario_payload
        = (an_instance (from_schema_sql d'),
           json 500 (error_body "Failed to save game"))
        /\ List.length (saves_of d' 1) = 1%nat
        /\ getLeaderboard (from_schema_sql d') "total_coins" 10
           = Reject (Error "Invalid leaderboard category")
        /\ getLeaderboard (from_schema_sql d') "coins" 10
           = Reject (no_such_column "gs.coins")
        /\ getLeaderboard (from_schema_sql d') "sustainability" 10
           = Reject (no_such_column "gs.sustainability_score"))
  /\ post_save (an_instance (created_directly direct_farmer1)) 100 iso
               farmer1 scenario_payload
     = (an_instance (created_directly direct_farmer1),
        json 500 (error_body "Failed to save game"))
  /\ getLeaderboard (created_directly direct_farmer1) "total_coins" 10
     = Reject (Error "Invalid leaderboard category")
  /\ getLeaderboard (created_directly direct_farmer1) "coins" 10 = Resolve []
  /\ getLeaderboard (created_directly direct_farmer1) "sustainability" 10
     = Resolve []
  /\ sustainabilityScore (VStr "Learning") = VNum 2.
Proof.
  cbv zeta. split; [reflexivity|]. split.
  - eexists. split; [vm_compute; reflexivity|].
    repeat split; reflexivity.
  - repeat split; reflexivity.
Qed.

(** ** authenticateUser *)

Section Authenticate.

Context {host : Host}.

Lemma authenticateUser_unknown d now usernameOrEmail password :
  select_user usernameOrEmail (users d) = None ->
  authenticateUser d now usernameOrEmail password
  = (d, Reject (Error "User not found")).
Proof. unfold authenticateUser. intros ->. reflexivity. Qed.

Lemma authenticateUser_wrong_password d now usernameOrEmail password user :
  select_user usernameOrEmail (users d) = Some user ->
  bcrypt_compareSync password (u_password_hash user) = false ->
  authenticateUser d now usernameOrEmail password
  = (d, Reject (Error "Invalid password")).
Proof. unfold authenticateUser. intros -> ->. reflexivity. Qed.

End Authenticate.

(** C5.  A wrong password for farmer1 and a name no user has are
    rejected with two different errors, and the login route hands the
    two messages to the client. *)
Theorem C5_errors_tell_unknown_user_from_wrong_password :
  @authenticateUser test_host farmer1_db 100 "farmer1" "wrongpass"
  = (farmer1_db, Reject (Error "Invalid password"))
  /\ @authenticateUser test_host farmer1_db 100 "nosuchuser" "x"
     = (farmer1_db, Reject (Error "User not found"))
  /\ Error "Invalid password" <> Error "User not found"
  /\ snd (@post_login test_host farmer1_db 100 "farmer1" "wrongpass")
     = json 401 (error_body "Invalid password")
  /\ snd (@post_login test_host farmer1_db 100 "nosuchuser" "x")
     = json 401 (error_body "User not found").
Proof. repeat split; try reflexivity. discriminate. Qed.

(** ** createUser *)

Section CreateUser.

Context {host : Host}.


Lemma createUser_resolves d username email password displayName d1 r :
  createUser d username email password displayName = (d1, Resolve r) ->
  existsb (fun u => String.eqb (u_username u) username
                    || String.eqb (u_email u) email) (users d) = false
  /\ exists row, users d1 = users d ++ [row]
                 /\ u_username row = username /\ u_email row = email.
Proof.
  unfold createUser, insert_user.
  destruct (existsb _ (users d)) eqn:E; [discriminate|].
  intros H. inversion H; subst. split; [reflexivity|].
  eexists. cbn [users]. split; [reflexivity|]. split; reflexivity.
Qed.



End CreateUser.



(** ** Sessions (modelled from the specification) *)

Section Sessions.

Context {host : Host}.

Import SessionManager.



(** The session of the register and login routes is an issued session
    with a lifetime of seven days. *)
Lemma route_session_is_issue ss now userId token ip ua :
  route_session ss now userId token ip ua
  = issue ss now userId (7 * 24 * 60 * 60) token ip ua.
Proof. reflexivity. Qed.

End Sessions.


(** ** Achievements (modelled from the specification) *)

Section Achievements.

Import AchievementLedger.

(** C6.  After an [addAchievement] that succeeded, a second one for the
    same user and name fails with DuplicateAchievement, whatever its type,
    description and points, and the ledger holds one record for the
    pair. *)
Theorem C6_duplicate_achievement_rejected
    l now userId type name description points l1 a
    now' type' description' points' :
  addAchievement l now userId type name description points = (l1, Ok a) ->
  addAchievement l1 now' userId type' name description' points'
  = (l1, Fail DuplicateAchievement)
  /\ List.length (filter (same_unlock userId name) (entries l1)) = 1%nat.
Proof.
  unfold addAchievement.
  destruct (existsb (same_unlock userId name) (entries l)) eqn:E;
    [discriminate|].
  intros H. inversion H; subst; clear H. cbn [entries].
  assert (same_unlock userId name
            (mkAchievement (autoincrement (seq_achievements l)
                              (map a_id (entries l)))
                           userId type name description now points) = true)
    as Hnew.
  { unfold same_unlock. cbn. rewrite Z.eqb_refl, String.eqb_refl. reflexivity. }
  split.
  - rewrite existsb_app. cbn [existsb]. rewrite Hnew, orb_true_r. reflexivity.
  - rewrite filter_app. cbn [filter]. rewrite Hnew, length_app.
    replace (filter (same_unlock userId name) (entries l)) with
      (@nil achievement_row); [reflexivity|].
    symmetry. clear Hnew. induction (entries l) as [|x xs IH]; [reflexivity|].
    simpl in E. apply orb_false_iff in E as [Ex Exs].
    simpl. rewrite Ex. apply IH, Exs.
Qed.

End Achievements.

(** The example of the specification: "Eco Master" unlocked twice. *)
Lemma C6_duplicate_achievement_rejected_witness :
  let l1 := fst (AchievementLedger.addAchievement
                   AchievementLedger.no_achievements 100 1
                   "sustainability" "Eco Master" None 50) in
  AchievementLedger.addAchievement l1 200 1 "sustainability" "Eco Master"
    (Some "again") 0
  = (l1, Fail DuplicateAchievement)
  /\ List.length (filter (AchievementLedger.same_unlock 1 "Eco Master")
                         (AchievementLedger.entries l1)) = 1%nat.
Proof.
  apply (C6_duplicate_achievement_rejected
           AchievementLedger.no_achievements 100 1 "sustainability"
           "Eco Master" None 50 _
           (AchievementLedger.mkAchievement 1 1 "sustainability" "Eco Master"
              None 100 50)).
  reflexivity.
Defined.

(** ** getLeaderboard *)

Lemma order_by_desc_perm {R} (key : R -> Z) l :
  Permutation (order_by_desc key l) l.
Proof.
  assert (forall x l', Permutation (insert_desc key x l') (x :: l')) as Hins.
  { intros x l'. induction l' as [|y l' IH]; simpl; [reflexivity|].
    destruct (key y <=? key x); [reflexivity|].
    rewrite IH. apply perm_swap. }
  induction l as [|x l IH]; simpl; [reflexivity|].
  rewrite Hins. constructor. exact IH.
Qed.

Lemma length_order_by_desc {R} (key : R -> Z) l :
  List.length (order_by_desc key l) = List.length l.
Proof. apply Permutation_length, order_by_desc_perm. Qed.

Lemma sorted_firstn_skipn {A} (le : A -> A -> Prop) n l :
  StronglySorted le l ->
  forall x y, In x (firstn n l) -> In y (skipn n l) -> le x y.
Proof.
  intros Hs. revert n. induction Hs as [|a l Hs IH Ha]; intros [|n] x y;
    simpl; try tauto.
  intros [<- | Hx] Hy.
  - rewrite Forall_forall in Ha. apply Ha.
    rewrite <- (firstn_skipn n l). apply in_or_app. right. exact Hy.
  - eapply IH; eauto.
Qed.

Lemma recognized_column category :
  recognized category ->
  exists column score, score_column category = Some (column, score).
Proof. intros [-> | [-> | ->]]; do 2 eexists; reflexivity. Qed.


Lemma scores_of_entries score i rows :
  scores_of (map_index (leaderboard_entry score) i rows)
  = map (fun r => VNum (score (snd r))) rows.
Proof.
  revert i. induction rows as [|r rows IH]; intros i; simpl; [reflexivity|].
  f_equal. apply IH.
Qed.

Lemma ranks_of_entries score i rows :
  ranks_of (map_index (leaderboard_entry score) i rows)
  = map (fun k => VNum (i + Z.of_nat k)) (seq 1 (List.length rows)).
Proof.
  revert i. induction rows as [|r rows IH]; intros i; simpl; [reflexivity|].
  f_equal.
  rewrite <- seq_shift, map_map. unfold ranks_of in IH. rewrite IH.
  apply map_ext. intros k. f_equal. lia.
Qed.


(** C8.  For a recognized category, on the tables of schema.sql
    [getLeaderboard] rejects at every limit: the query names a column
    that [game_saves] does not have there.  On directly created tables
    it resolves; the rows of the join split into the rows shown and the
    rows left out, no row left out has a larger score than a row shown,
    the rows shown are in non-increasing order of score and as many as
    the limit allows, and the entries are the rows shown, with their
    scores and with the ranks 1, 2, 3, ... in order. *)
Theorem C8_getLeaderboard_sorted_or_no_such_column
    (s : store) category limit :
  recognized category ->
  match s with
  | from_schema_sql _ =>
      exists column,
        getLeaderboard s category limit = Reject (no_such_column column)
  | created_directly d =>
      exists score shown omitted,
        Permutation (shown ++ omitted) (join_users_saves d)
        /\ (forall x y, In x shown -> In y omitted ->
                        score (snd y) <= score (snd x))
        /\ StronglySorted (fun a b => score (snd b) <= score (snd a)) shown
        /\ List.length shown
           = (if limit <? 0 then List.length (join_users_saves d)
              else Nat.min (Z.to_nat limit)
                           (List.length (join_users_saves d)))
        /\ getLeaderboard s category limit
           = Resolve (map_index (leaderboard_entry score) 0 shown)
        /\ scores_of (resolved (getLeaderboard s category limit))
           = map (fun r => VNum (score (snd r))) shown
        /\ ranks_of (resolved (getLeaderboard s category limit))
           = map (fun k => VNum (Z.of_nat k)) (seq 1 (List.length shown))
  end.
Proof.
  intros Hc. destruct (recognized_column category Hc) as (column & score & Hs).
  destruct s as [d|d].
  - exists column. unfold getLeaderboard. rewrite Hs. reflexivity.
  - set (all := order_by_desc
                  (fun r : user_row * direct_save_row => score (snd r))
                  (join_users_saves d)).
    assert (getLeaderboard (created_directly d) category limit
            = Resolve (map_index (leaderboard_entry score) 0
                         (sql_limit limit all))) as Hg
      by (unfold getLeaderboard; rewrite Hs; reflexivity).
    exists score, (sql_limit limit all), (sql_beyond limit all).
    rewrite Hg. cbn [resolved].
    split; [|split; [|split; [|split; [|split; [|split]]]]].
    + unfold sql_limit, sql_beyond. destruct (limit <? 0).
      * rewrite app_nil_r. apply order_by_desc_perm.
      * rewrite firstn_skipn. apply order_by_desc_perm.
    + unfold sql_limit, sql_beyond. destruct (limit <? 0); [intros x y _ []|].
      intros x y Hx Hy.
      exact (sorted_firstn_skipn
               (fun a b : user_row * direct_save_row =>
                  score (snd b) <= score (snd a))
               _ _ (order_by_desc_sorted _ _) x y Hx Hy).
    + apply sql_limit_sorted, order_by_desc_sorted.
    + unfold sql_limit. destruct (limit <? 0).
      * apply length_order_by_desc.
      * rewrite length_firstn. unfold all. rewrite length_order_by_desc.
        reflexivity.
    + reflexivity.
    + apply scores_of_entries.
    + rewrite ranks_of_entries. reflexivity.
Qed.

(** The store [initSchema] makes from schema.sql, with one user and one
    save. *)
Lemma C8_getLeaderboard_sorted_or_no_such_column_witness :
  exists column,
    getLeaderboard
      (from_schema_sql (fst (saveGameState farmer1_db 100 1 scenario_payload)))
      "coins" 10
    = Reject (no_such_column column).
Proof.
  apply (C8_getLeaderboard_sorted_or_no_such_column
           (from_schema_sql
              (fst (saveGameState farmer1_db 100 1 scenario_payload)))
           "coins" 10).
  left. reflexivity.
Defined.

Example leaderboard_three_farmers :
  getLeaderboard (created_directly three_farmers) "coins" 2
  = Resolve [VObj [("rank", VNum 1); ("username", VStr "Bob");
                   ("score", VNum 900); ("lastUpdated", VNum 20)];
             VObj [("rank", VNum 2); ("username", VStr "ann");
                   ("score", VNum 250); ("lastUpdated", VNum 10)]].
Proof. reflexivity. Qed.



(** ** routes/leaderboard.js on the entries of getLeaderboard *)

Lemma entries_lack_route_fields score i rows :
  Forall lacks_route_fields (map_index (leaderboard_entry score) i rows).
Proof.
  revert i. induction rows as [|r rows IH]; intros i; simpl; constructor.
  - repeat split.
  - apply IH.
Qed.

Lemma getLeaderboard_lacks_route_fields s category limit :
  Forall lacks_route_fields (resolved (getLeaderboard s category limit)).
Proof.
  unfold getLeaderboard.
  destruct (score_column category) as [[column score]|]; [|constructor].
  destruct s; simpl.
  - constructor.
  - apply entries_lack_route_fields.
Qed.

Lemma call_getLeaderboard_lacks_route_fields database category limit :
  Forall lacks_route_fields
         (resolved (call_getLeaderboard database category limit)).
Proof.
  destruct database as [|s]; simpl.
  - constructor.
  - apply getLeaderboard_lacks_route_fields.
Qed.

Lemma map_throw_Forall {A B} (f : A -> option B) (P : A -> Prop) (Q : B -> Prop) :
  (forall x y, P x -> f x = Some y -> Q y) ->
  forall l l', Forall P l -> map_throw f l = Some l' -> Forall Q l'.
Proof.
  intros Hf. induction l as [|x l IH]; intros l' HP; simpl.
  - intros H. inversion H. constructor.
  - inversion HP; subst.
    destruct (f x) as [y|] eqn:Ey; [|discriminate].
    destruct (map_throw f l) as [ys|]; [|discriminate].
    intros H. inversion H; subst. constructor; eauto.
Qed.

Section Routes.

Context {host : Host}.

Lemma format_entry_rank category entry formatted :
  format_entry category entry = Some formatted ->
  get formatted "rank" = get entry "rank_position".
Proof.
  unfold format_entry.
  destruct (String.eqb category "total_coins").
  { destruct (locale_string (get entry "score")); [|discriminate].
    intros H. inversion H. reflexivity. }
  destruct (String.eqb category "farm_level").
  { intros H. inversion H. reflexivity. }
  destruct (String.eqb category "sustainability");
    intros H; inversion H; reflexivity.
Qed.

Lemma get_category_ranks database now_iso category parsed_limit :
  Forall (fun e => get e "rank" = VUndefined)
         (response_entries
            (get_category database now_iso category parsed_limit)).
Proof.
  unfold get_category.
  destruct (negb (existsb (String.eqb category) validCategories));
    [constructor|].
  destruct (100 <? limit_or_default parsed_limit); [constructor|].
  pose proof (call_getLeaderboard_lacks_route_fields database category
                (limit_or_default parsed_limit)) as Hl.
  destruct (call_getLeaderboard database category
              (limit_or_default parsed_limit))
    as [leaderboard|e]; [|constructor].
  destruct (map_throw (format_entry category) leaderboard) as [fl|] eqn:E;
    [|constructor].
  unfold response_entries. cbn.
  revert E. apply map_throw_Forall with (P := lacks_route_fields); [|exact Hl].
  intros x y (_ & Hx & _) Hy. rewrite (format_entry_rank _ _ _ Hy). exact Hx.
Qed.

Lemma get_sustainability_detailed_ranks database now_iso parsed_limit :
  Forall (fun e => get e "rank" = VUndefined)
         (response_entries
            (get_sustainability_detailed database now_iso parsed_limit)).
Proof.
  unfold get_sustainability_detailed.
  pose proof (call_getLeaderboard_lacks_route_fields database "sustainability"
                (limit_or_default parsed_limit)) as Hl.
  destruct (call_getLeaderboard database "sustainability"
              (limit_or_default parsed_limit))
    as [lb|e]; [|constructor].
  unfold response_entries. cbn. simpl in Hl.
  induction Hl as [|x l (_ & Hx & _) _ IH]; simpl; constructor; auto.
Qed.

(** The summary and the position route ask [getLeaderboard] for
    "total_coins" first, which it rejects where it can be called at all:
    both always answer 500. *)
Lemma get_summary_fails database now_iso :
  get_summary database now_iso
  = json 500 (error_body "Failed to fetch leaderboards").
Proof. destruct database; reflexivity. Qed.

Lemma get_user_position_fails database now_iso userId :
  get_user_position database now_iso userId
  = json 500 (error_body "Failed to fetch user leaderboard positions").
Proof. destruct database; reflexivity. Qed.

Lemma find_user_entry_none es userId :
  Forall lacks_route_fields es -> find_user_entry es userId = None.
Proof.
  unfold find_user_entry. induction 1 as [|e es (_ & _ & He & _) _ IH]; simpl.
  - reflexivity.
  - rewrite He. exact IH.
Qed.

(** C10.  Whatever the tables, whatever the routes hold as [database]
    (the class they require, or an instance), the category and the
    limit: the entries of [getLeaderboard] have the properties [rank],
    [username], [score] and [lastUpdated] and no [rank_position],
    [user_id] or [updated_at]; every entry in the response of the
    category route, of the summary route and of the detailed
    sustainability route has an undefined [rank]; the [find] of the
    position route finds no entry, so that the position it computes has
    rank [null]; and the position route reports no rank for any
    category. *)
Theorem C10_routes_read_fields_getLeaderboard_does_not_write
    (d : store) (database : database_module) now_iso category limit
    parsed_limit userId :
  Forall lacks_route_fields (resolved (getLeaderboard d category limit))
  /\ Forall (fun e => get e "rank" = VUndefined)
            (response_entries
               (get_category database now_iso category parsed_limit))
  /\ Forall (fun e => get e "rank" = VUndefined)
            (summary_entries (get_summary database now_iso) category)
  /\ Forall (fun e => get e "rank" = VUndefined)
            (response_entries
               (get_sustainability_detailed database now_iso parsed_limit))
  /\ find_user_entry (resolved (getLeaderboard d category limit)) userId = None
  /\ get (position_of (resolved (getLeaderboard d category limit)) userId)
         "rank" = VNull
  /\ no_rank (reported_rank (get_user_position database now_iso userId)
                            category).
Proof.
  pose proof (getLeaderboard_lacks_route_fields d category limit) as Hl.
  split; [exact Hl|].
  split; [apply get_category_ranks|].
  split; [rewrite get_summary_fails; constructor|].
  split; [apply get_sustainability_detailed_ranks|].
  pose proof (find_user_entry_none _ userId Hl) as Hf.
  split; [exact Hf|].
  split.
  - unfold position_of. rewrite Hf. reflexivity.
  - rewrite get_user_position_fails. left. reflexivity.
Qed.

End Routes.

(** The category route, had it an instance on directly created tables
    with three rows: three entries, none with a rank.  As the route file
    requires the engine it answers 500. *)
Example category_route_three_farmers :
  map (fun e => (get e "rank", get e "username", get e "formattedScore"))
      (response_entries
         (@get_category test_host (an_instance (created_directly three_farmers))
                        "now" "sustainability" None))
  = [(VUndefined, VStr "Bob", VStr "Green Farmer");
     (VUndefined, VStr "ann", VStr "Beginner");
     (VUndefined, VStr "cy", VStr "Unknown")]
  /\ @get_category test_host module_exports "now" "sustainability" None
     = json 500 (error_body "Failed to fetch leaderboard").
Proof. split; reflexivity. Qed.

(* ================================================================== *)
(** * Further properties of the code *)

(** ** createTablesDirectly *)

Lemma first_error_app p q :
  first_error (p ++ q)
  = match first_error p with Some e => Some e | None => first_error q end.
Proof.
  induction p as [|[i [e|]] p IH]; simpl; auto.
Qed.

(** What the counters and the trace are after the callbacks [p], fewer
    than or as many as there are statements. *)
Lemma createTablesDirectly_state n p :
  (List.length p <= n)%nat ->
  let st := createTablesDirectly n p in
  match first_error p with
  | None =>
      hasError st = false /\ completed st = List.length p
      /\ settles (trace st)
         = (if Nat.eqb (List.length p) n && negb (Nat.eqb n 0)
            then [CallResolve] else [])
  | Some e =>
      hasError st = true /\ S (completed st) = List.length p
      /\ settles (trace st) = [CallReject e]
  end
  /\ List.length (logged_created (trace st)) = completed st.
Proof.
  unfold createTablesDirectly.
  induction p as [|[i err] p IH] using rev_ind; intros Hlen.
  - simpl. destruct n; simpl; auto.
  - rewrite length_app in Hlen. simpl in Hlen.
    assert (List.length p <= n)%nat as Hp by lia.
    specialize (IH Hp). cbv zeta in IH. cbv zeta.
    rewrite fold_left_app, first_error_app, length_app. cbn [fold_left fst snd].
    set (st := fold_left _ p _) in *.
    destruct IH as [IH Hlog].
    destruct (first_error p) as [e|] eqn:Ep.
    + destruct IH as (Hh & Hc & Hs).
      unfold table_callback. rewrite Hh.
      replace (match err with Some _ | _ => _ end)
        with (mkSetup (S (completed st)) true
                      (trace st ++ [LogCreated (i + 1)])).
      2:{ rewrite andb_false_r. destruct err; reflexivity. }
      cbn [hasError completed trace]. split; [split; [|split]|].
      * reflexivity.
      * simpl. lia.
      * unfold settles in *. rewrite filter_app, Hs. reflexivity.
      * unfold logged_created in *. rewrite flat_map_app, length_app, Hlog.
        simpl. lia.
    + destruct IH as (Hh & Hc & Hs).
      assert (Nat.eqb (List.length p) n = false) as Hne
        by (apply Nat.eqb_neq; lia).
      rewrite Hne in Hs. simpl in Hs.
      unfold table_callback. rewrite Hh.
      destruct err as [e|]; cbn [first_error].
      * cbn [hasError completed trace]. split; [split; [|split]|].
        -- reflexivity.
        -- simpl. lia.
        -- unfold settles in *. rewrite filter_app, Hs. reflexivity.
        -- unfold logged_created in *. rewrite flat_map_app, length_app, Hlog.
           simpl. lia.
      * rewrite andb_true_r, Hc.
        replace (List.length p + List.length [(i, @None error)])%nat
          with (S (List.length p)) by (simpl; lia).
        destruct (Nat.eqb_spec (S (List.length p)) n) as [E|E];
          cbn [hasError completed trace].
        -- split; [split; [|split]|].
           ++ first [reflexivity | exact Hh].
           ++ lia.
           ++ unfold settles in *. rewrite filter_app, Hs.
              destruct n; [lia | reflexivity].
           ++ unfold logged_created in *.
              rewrite flat_map_app, length_app, Hlog. simpl. lia.
        -- split; [split; [|split]|].
           ++ first [reflexivity | exact Hh].
           ++ lia.
           ++ unfold settles in *. rewrite filter_app, Hs. reflexivity.
           ++ unfold logged_created in *.
              rewrite flat_map_app, length_app, Hlog. simpl. lia.
Qed.

(** X1.  When each of the [n] statements has called back once, in
    whatever order: if none failed, [resolve] is called once and [reject]
    never; if some failed, [reject] is called once, with the error that
    arrived first, and [resolve] never; and after a failure every other
    statement, failed or not, is logged as created. *)
Theorem X1_createTablesDirectly_settles_once n callbacks :
  List.length callbacks = n ->
  let st := createTablesDirectly n callbacks in
  settles (trace st)
  = match first_error callbacks with
    | Some e => [CallReject e]
    | None => if Nat.eqb n 0 then [] else [CallResolve]
    end
  /\ List.length (logged_created (trace st))
     = match first_error callbacks with
       | Some _ => (n - 1)%nat
       | None => n
       end.
Proof.
  intros Hlen. cbv zeta.
  pose proof (createTablesDirectly_state n callbacks) as H.
  cbv zeta in H. specialize (H ltac:(lia)). destruct H as [H Hlog].
  rewrite Hlog. destruct (first_error callbacks) as [e|].
  - destruct H as (_ & Hc & Hs). split; [exact Hs | lia].
  - destruct H as (_ & Hc & Hs). split; [|lia].
    rewrite Hs, Hlen, Nat.eqb_refl. destruct (Nat.eqb n 0); reflexivity.
Qed.

(** Six statements, the third and the fifth failing, the fifth first. *)
Lemma X1_createTablesDirectly_settles_once_witness :
  let callbacks :=
    [(0%nat, None);
     (4%nat, Some (SqliteError "SQLITE_FULL" "SQLITE_FULL: disk is full"));
     (1%nat, None);
     (2%nat, Some (SqliteError "SQLITE_IOERR" "SQLITE_IOERR: disk I/O error"));
     (3%nat, None); (5%nat, None)] in
  let st := createTablesDirectly 6 callbacks in
  settles (trace st)
  = [CallReject (SqliteError "SQLITE_FULL" "SQLITE_FULL: disk is full")]
  /\ List.length (logged_created (trace st)) = 5%nat.
Proof.
  apply (X1_createTablesDirectly_settles_once 6
           [(0%nat, None);
            (4%nat,
             Some (SqliteError "SQLITE_FULL" "SQLITE_FULL: disk is full"));
            (1%nat, None);
            (2%nat,
             Some (SqliteError "SQLITE_IOERR" "SQLITE_IOERR: disk I/O error"));
            (3%nat, None); (5%nat, None)]).
  reflexivity.
Defined.

(** ** createUser and authenticateUser *)

Section Accounts.

Context {host : Host}.

Lemma find_app_none {A} (f : A -> bool) l l' :
  find f l = None -> find f (l ++ l') = find f l'.
Proof.
  induction l as [|x l IH]; simpl; [reflexivity|].
  destruct (f x); [discriminate | exact IH].
Qed.

Lemma find_none_forall {A} (f : A -> bool) l :
  (forall x, In x l -> f x = false) -> find f l = None.
Proof.
  induction l as [|x l IH]; intros H; simpl; [reflexivity|].
  rewrite (H x (or_introl eq_refl)). apply IH. intros y Hy. apply H. right. exact Hy.
Qed.

Lemma existsb_false_forall {A} (f : A -> bool) l :
  existsb f l = false -> forall x, In x l -> f x = false.
Proof.
  intros H x Hx. destruct (f x) eqn:E; [|reflexivity].
  rewrite <- H. symmetry. apply existsb_exists. exists x. auto.
Qed.

Lemma createUser_row d username email password displayName d1 r :
  createUser d username email password displayName = (d1, Resolve r) ->
  r = VObj [("id", VNum (autoincrement (seq_users d) (map u_id (users d))));
            ("username", VStr username); ("email", VStr email)]
  /\ users d1
     = users d
       ++ [mkUser (autoincrement (seq_users d) (map u_id (users d)))
                  username email (bcrypt_hashSync password 10)
                  (Some (text_or displayName username)) None true].
Proof.
  unfold createUser, insert_user.
  destruct (existsb _ (users d)); [discriminate|].
  intros H. inversion H; subst. split; reflexivity.
Qed.

(** A login under a name that only the last row answers to. *)
Lemma authenticateUser_last_row d now name password us row :
  users d = us ++ [row] ->
  u_is_active row = true ->
  u_username row = name \/ u_email row = name ->
  (forall u, In u us -> u_username u <> name /\ u_email u <> name) ->
  bcrypt_compareSync password (u_password_hash row) = true ->
  snd (authenticateUser d now name password)
  = Resolve (VObj [("id", VNum (u_id row));
                   ("username", VStr (u_username row));
                   ("email", VStr (u_email row));
                   ("display_name", value_of_text (u_display_name row))]).
Proof.
  intros Hus Ha Hm Hno Hb. unfold authenticateUser, select_user.
  rewrite Hus.
  rewrite !find_app_none
    by (apply find_none_forall; intros u Hu; destruct (Hno u Hu) as [Hn He];
        apply String.eqb_neq in Hn, He; rewrite ?Hn, ?He; reflexivity).
  cbn [find]. rewrite Ha, !andb_true_r.
  destruct (String.eqb_spec (u_username row) name) as [E|N].
  - rewrite Hb. reflexivity.
  - destruct Hm as [E|E]; [contradiction|].
    rewrite <- E, String.eqb_refl, Hb. reflexivity.
Qed.

(** After a [createUser] that resolved, no earlier user answers to the
    new username or to the new email, given that none has the one as
    email or the other as username. *)
Lemma createUser_names_free d username email password displayName d1 r x :
  createUser d username email password displayName = (d1, Resolve r) ->
  (forall u, In u (users d) ->
     u_email u <> username /\ u_username u <> email) ->
  x = username \/ x = email ->
  forall u, In u (users d) -> u_username u <> x /\ u_email u <> x.
Proof.
  intros Hc Hcross Hx u Hu.
  destruct (createUser_resolves _ _ _ _ _ _ _ Hc) as (Hfree & _).
  pose proof (existsb_false_forall _ _ Hfree u Hu) as Hno. cbv beta in Hno.
  apply orb_false_iff in Hno as [Hn He]. apply String.eqb_neq in Hn, He.
  destruct (Hcross u Hu) as [Hce Hcn].
  destruct Hx as [-> | ->]; split; assumption.
Qed.

(** X2.  A [createUser] that resolves adds exactly one row, active, with
    the bcrypt hash of the password and with [displayName] or, when that
    is null or empty, the username as display name; its id is larger
    than every id in the table and than every id handed out before, so
    that ids stay distinct; the saves are untouched. *)
Theorem X2_createUser_adds_one_user_with_a_fresh_id
    d username email password displayName d1 r :
  createUser d username email password displayName = (d1, Resolve r) ->
  exists id,
    r = VObj [("id", VNum id); ("username", VStr username);
              ("email", VStr email)]
    /\ users d1
       = users d ++ [mkUser id username email (bcrypt_hashSync password 10)
                            (Some (text_or displayName username)) None true]
    /\ (forall u, In u (users d) -> u_id u < id)
    /\ seq_users d < id /\ seq_users d1 = id
    /\ (NoDup (map u_id (users d)) -> NoDup (map u_id (users d1)))
    /\ game_saves d1 = game_saves d.
Proof.
  unfold createUser, insert_user.
  destruct (existsb _ (users d)) eqn:E; [discriminate|].
  intros H. inversion H; subst; clear H.
  set (id := autoincrement (seq_users d) (map u_id (users d))).
  assert (forall u, In u (users d) -> u_id u < id) as Hfresh.
  { intros u Hu. apply autoincrement_fresh. apply in_map. exact Hu. }
  exists id. cbn [users game_saves seq_users].
  repeat split; auto.
  - unfold id, autoincrement.
    clear. induction (map u_id (users d)); simpl; lia.
  - intros Hnd. rewrite map_app. cbn [map u_id].
    apply NoDup_app; [exact Hnd | repeat constructor; simpl; tauto |].
    intros x Hx [<- | []]. apply in_map_iff in Hx as (u & Hu & Hin).
    specialize (Hfresh u Hin). lia.
Qed.

(** X3.  Register, then log in.  After a [createUser] that resolved,
    [authenticateUser] with the same password resolves with the new
    user, by the username and by the email alike, provided bcrypt
    accepts a password against its own hash and no earlier user has the
    new username as email or the new email as username, so that the
    new row is the only one the query of [authenticateUser] matches. *)
Theorem X3_createUser_then_authenticateUser
    d username email password displayName d1 r now :
  createUser d username email password displayName = (d1, Resolve r) ->
  bcrypt_compareSync password (bcrypt_hashSync password 10) = true ->
  (forall u, In u (users d) ->
     u_email u <> username /\ u_username u <> email) ->
  let identity :=
    VObj [("id", get r "id"); ("username", VStr username);
          ("email", VStr email);
          ("display_name", VStr (text_or displayName username))] in
  snd (authenticateUser d1 now username password) = Resolve identity
  /\ snd (authenticateUser d1 now email password) = Resolve identity.
Proof.
  intros Hc Hb Hcross. cbv zeta.
  destruct (createUser_row _ _ _ _ _ _ _ Hc) as (-> & Hus).
  split.
  - rewrite (authenticateUser_last_row d1 now username password _ _ Hus);
      [reflexivity | reflexivity | left; reflexivity | | exact Hb].
    apply (createUser_names_free _ _ _ _ _ _ _ _ Hc Hcross). left. reflexivity.
  - rewrite (authenticateUser_last_row d1 now email password _ _ Hus);
      [reflexivity | reflexivity | right; reflexivity | | exact Hb].
    apply (createUser_names_free _ _ _ _ _ _ _ _ Hc Hcross). right. reflexivity.
Qed.

End Accounts.

Lemma X2_createUser_adds_one_user_with_a_fresh_id_witness :
  exists id,
    VObj [("id", VNum 2); ("username", VStr "farmer2");
          ("email", VStr "f2@x.com")]
    = VObj [("id", VNum id); ("username", VStr "farmer2");
            ("email", VStr "f2@x.com")]
    /\ users (fst (@createUser test_host farmer1_db "farmer2" "f2@x.com"
                     "secret" (Some EmptyString)))
       = users farmer1_db
         ++ [mkUser id "farmer2" "f2@x.com"
                    (@bcrypt_hashSync test_host "secret" 10)
                    (Some (text_or (Some EmptyString) "farmer2")) None true]
    /\ (forall u, In u (users farmer1_db) -> u_id u < id)
    /\ seq_users farmer1_db < id
    /\ seq_users (fst (@createUser test_host farmer1_db "farmer2" "f2@x.com"
                         "secret" (Some EmptyString))) = id
    /\ (NoDup (map u_id (users farmer1_db)) ->
        NoDup (map u_id (users (fst (@createUser test_host farmer1_db
                                       "farmer2" "f2@x.com" "secret"
                                       (Some EmptyString))))))
    /\ game_saves (fst (@createUser test_host farmer1_db "farmer2" "f2@x.com"
                          "secret" (Some EmptyString)))
       = game_saves farmer1_db.
Proof.
  apply (@X2_createUser_adds_one_user_with_a_fresh_id test_host farmer1_db
           "farmer2" "f2@x.com" "secret" (Some EmptyString)).
  reflexivity.
Defined.

Lemma X3_createUser_then_authenticateUser_witness :
  let identity :=
    VObj [("id", get (VObj [("id", VNum 1); ("username", VStr "farmer1");
                            ("email", VStr "f1@x.com")]) "id");
          ("username", VStr "farmer1"); ("email", VStr "f1@x.com");
          ("display_name", VStr (text_or None "farmer1"))] in
  snd (@authenticateUser test_host farmer1_db 50 "farmer1" "pw123456")
  = Resolve identity
  /\ snd (@authenticateUser test_host farmer1_db 50 "f1@x.com" "pw123456")
     = Resolve identity.
Proof.
  apply (@X3_createUser_then_authenticateUser test_host empty_db
           "farmer1" "f1@x.com" "pw123456" None farmer1_db
           (VObj [("id", VNum 1); ("username", VStr "farmer1");
                  ("email", VStr "f1@x.com")]) 50).
  - reflexivity.
  - reflexivity.
  - intros u [].
Defined.

Section Authentication.

Context {host : Host}.

(** The row the query of [authenticateUser] gives is an active row of
    the table that answers to the name. *)
Lemma select_user_some usernameOrEmail us user :
  select_user usernameOrEmail us = Some user ->
  In user us /\ u_is_active user = true
  /\ (u_username user = usernameOrEmail \/ u_email user = usernameOrEmail).
Proof.
  unfold select_user.
  destruct (find _ us) as [u|] eqn:E.
  - intros H. inversion H; subst. apply find_some in E as [Hin Hm].
    apply andb_true_iff in Hm as [Hn Ha]. apply String.eqb_eq in Hn. auto.
  - intros H. apply find_some in H as [Hin Hm].
    apply andb_true_iff in Hm as [He Ha]. apply String.eqb_eq in He. auto.
Qed.

(** X4.  [authenticateUser] resolves only for a stored user that is
    active, that has the given name as username or as email, and whose
    stored hash bcrypt accepts for the given password; what it resolves
    with is the id, username, email and display name of that row.  An
    inactive user never logs in. *)
Theorem X4_authenticateUser_is_sound d now usernameOrEmail password d1 r :
  authenticateUser d now usernameOrEmail password = (d1, Resolve r) ->
  exists user,
    In user (users d)
    /\ u_is_active user = true
    /\ (u_username user = usernameOrEmail \/ u_email user = usernameOrEmail)
    /\ bcrypt_compareSync password (u_password_hash user) = true
    /\ r = VObj [("id", VNum (u_id user));
                 ("username", VStr (u_username user));
                 ("email", VStr (u_email user));
                 ("display_name", value_of_text (u_display_name user))].
Proof.
  unfold authenticateUser.
  destruct (select_user usernameOrEmail (users d)) as [user|] eqn:E;
    [|discriminate].
  destruct (bcrypt_compareSync password (u_password_hash user)) eqn:Eb;
    [|discriminate].
  cbn [negb]. intros H. inversion H; subst; clear H.
  apply select_user_some in E as (Hin & Hact & Hname).
  exists user. repeat split; auto.
Qed.

(** X5.  What [authenticateUser] writes.  A rejected call leaves the
    store as it was.  A call that resolves changes nothing but
    [last_login], which it sets to the current time in the rows that
    have the id of the user it resolves with; ids, usernames, emails,
    hashes, active flags, the saves and the id counters stay. *)
Theorem X5_authenticateUser_writes_last_login_only
    d now usernameOrEmail password :
  let d1 := fst (authenticateUser d now usernameOrEmail password) in
  match snd (authenticateUser d now usernameOrEmail password) with
  | Reject _ => d1 = d
  | Resolve r =>
      exists id,
        get r "id" = VNum id
        /\ map u_id (users d1) = map u_id (users d)
        /\ map u_username (users d1) = map u_username (users d)
        /\ map u_email (users d1) = map u_email (users d)
        /\ map u_password_hash (users d1) = map u_password_hash (users d)
        /\ map u_display_name (users d1) = map u_display_name (users d)
        /\ map u_is_active (users d1) = map u_is_active (users d)
        /\ map u_last_login (users d1)
           = map (fun u => if u_id u =? id then Some now else u_last_login u)
                 (users d)
        /\ game_saves d1 = game_saves d
        /\ seq_users d1 = seq_users d
        /\ seq_game_saves d1 = seq_game_saves d
  end.
Proof.
  cbv zeta. unfold authenticateUser.
  destruct (select_user usernameOrEmail (users d)) as [user|];
    [|reflexivity].
  destruct (bcrypt_compareSync password (u_password_hash user));
    [|reflexivity].
  cbn [negb fst snd users game_saves seq_users seq_game_saves].
  exists (u_id user). split; [reflexivity|].
  assert (forall A (f : user_row -> A),
            (forall u, f (touch_login now (u_id user) u) = f u) ->
            map f (map (touch_login now (u_id user)) (users d))
            = map f (users d)) as Hkeep.
  { intros A f H. rewrite map_map. apply map_ext. exact H. }
  repeat split;
    try (apply Hkeep; intros u; unfold touch_login;
         destruct (u_id u =? u_id user); reflexivity).
  rewrite map_map. apply map_ext. intros u. unfold touch_login.
  destruct (u_id u =? u_id user); reflexivity.
Qed.

End Authentication.

Lemma X4_authenticateUser_is_sound_witness :
  exists user,
    In user (users farmer1_db)
    /\ u_is_active user = true
    /\ (u_username user = "f1@x.com" \/ u_email user = "f1@x.com")
    /\ @bcrypt_compareSync test_host "pw123456" (u_password_hash user) = true
    /\ VObj [("id", VNum 1); ("username", VStr "farmer1");
             ("email", VStr "f1@x.com"); ("display_name", VStr "farmer1")]
       = VObj [("id", VNum (u_id user));
               ("username", VStr (u_username user));
               ("email", VStr (u_email user));
               ("display_name", value_of_text (u_display_name user))].
Proof.
  apply (@X4_authenticateUser_is_sound test_host farmer1_db 50 "f1@x.com"
           "pw123456"
           (fst (@authenticateUser test_host farmer1_db 50 "f1@x.com"
                   "pw123456"))).
  reflexivity.
Defined.

(** ** saveGameState and loadGameState, beyond valid payloads *)

(** The row [ORDER BY key DESC LIMIT 1] selects is a row of the table
    with the largest key, and there is one unless the table is empty. *)
Lemma first_by_desc {R} (key : R -> Z) l :
  match hd_error (sql_limit 1 (order_by_desc key l)) with
  | None => l = []
  | Some x => In x l /\ forall y, In y l -> key y <= key x
  end.
Proof.
  pose proof (order_by_desc_perm key l) as Hp.
  pose proof (order_by_desc_sorted key l) as Hs.
  unfold sql_limit. simpl.
  destruct (order_by_desc key l) as [|x rest]; simpl.
  - apply Permutation_nil in Hp. exact Hp.
  - split.
    + apply (Permutation_in _ Hp). left. reflexivity.
    + intros y Hy. apply Permutation_sym in Hp.
      apply (Permutation_in _ Hp) in Hy. destruct Hy as [<- | Hy]; [lia|].
      inversion Hs as [|? ? _ Hall]; subst.
      rewrite Forall_forall in Hall. apply Hall, Hy.
Qed.


(** A save of anything but [null] and [undefined] writes a new record. *)
Lemma saveGameState_defined d now userId gameData :
  nullish gameData = false ->
  exists game_state plots_data camera_data,
    saveGameState d now userId gameData
    = (saved d now userId game_state plots_data camera_data,
       Resolve (VObj [("id", VNum (autoincrement (seq_game_saves d)
                                     (map gs_id (game_saves d))))]))
    /\ JSON.stringify (js_or (get gameData "gameState") (VObj []))
       = Some game_state
    /\ JSON.stringify (js_or (get gameData "plots") (VArr []))
       = Some plots_data
    /\ JSON.stringify (js_or (get gameData "camera") default_camera)
       = Some camera_data.
Proof.
  intros Hn. unfold saveGameState. rewrite Hn.
  destruct (JSON.stringify (js_or (get gameData "gameState") (VObj [])))
    as [a|] eqn:Ea;
    [|exfalso; revert Ea; apply stringify_defined, js_or_defined; reflexivity].
  destruct (JSON.stringify (js_or (get gameData "plots") (VArr [])))
    as [b|] eqn:Eb;
    [|exfalso; revert Eb; apply stringify_defined, js_or_defined; reflexivity].
  destruct (JSON.stringify (js_or (get gameData "camera") default_camera))
    as [c|] eqn:Ec;
    [|exfalso; revert Ec; apply stringify_defined, js_or_defined; reflexivity].
  exists a, b, c. auto.
Qed.

(** X6.  [saveGameState] rejects exactly when [gameData] is [null] or
    [undefined], with a TypeError and the store unchanged.  Otherwise it
    resolves, whatever [gameData] is, with an id larger than every id in
    [game_saves] and than every id handed out before; it adds one row,
    keeps every row there was and leaves the users alone. *)
Theorem X6_saveGameState_rejects_only_nullish d now userId gameData :
  if nullish gameData
  then saveGameState d now userId gameData = (d, Reject TypeError)
  else
    exists id d',
      saveGameState d now userId gameData
      = (d', Resolve (VObj [("id", VNum id)]))
      /\ (forall r, In r (game_saves d) -> gs_id r < id)
      /\ seq_game_saves d < id /\ seq_game_saves d' = id
      /\ (exists row, game_saves d' = game_saves d ++ [row]
                      /\ gs_id row = id /\ gs_user_id row = userId
                      /\ gs_updated_at row = now)
      /\ users d' = users d.
Proof.
  destruct (nullish gameData) eqn:Hn.
  - unfold saveGameState. rewrite Hn. reflexivity.
  - destruct (saveGameState_defined d now userId gameData Hn)
      as (a & b & c & -> & _).
    do 2 eexists. split; [reflexivity|].
    split; [|split; [|split; [|split]]].
    + intros r Hr. apply autoincrement_fresh, in_map, Hr.
    + unfold autoincrement. clear.
      induction (map gs_id (game_saves d)); simpl; lia.
    + reflexivity.
    + eexists. unfold saved. cbn [game_saves].
      rewrite (insert_or_replace_new _ (seq_game_saves d)) by reflexivity.
      split; [reflexivity|]. repeat split.
    + reflexivity.
Qed.





(** X8.  A save of one user does not change what [loadGameState] gives
    another user. *)
Theorem X8_save_leaves_other_users_alone d now userId other gameData :
  other <> userId ->
  loadGameState (fst (saveGameState d now userId gameData)) other
  = loadGameState d other.
Proof.
  intros Hne. destruct (nullish gameData) eqn:Hn.
  - unfold saveGameState. rewrite Hn. reflexivity.
  - destruct (saveGameState_defined d now userId gameData Hn)
      as (a & b & c & -> & _).
    cbn [fst]. unfold loadGameState, select_latest_save, saved.
    cbn [game_saves].
    rewrite (insert_or_replace_new _ (seq_game_saves d)) by reflexivity.
    rewrite filter_app. cbn [filter gs_user_id].
    destruct (Z.eqb_spec userId other) as [E|_]; [congruence|].
    rewrite app_nil_r. reflexivity.
Qed.

Lemma X8_save_leaves_other_users_alone_witness :
  loadGameState (fst (saveGameState two_farmers_db 99 2 scenario_payload)) 1
  = loadGameState two_farmers_db 1.
Proof.
  apply (X8_save_leaves_other_users_alone two_farmers_db 99 2 1
           scenario_payload).
  discriminate.
Defined.

(** X9.  What [loadGameState] can give.  It resolves with [null] exactly
    when the user has no record.  When it resolves with anything else,
    [metadata.lastSaved] is the latest [updated_at] among the records of
    the user and [gameData] has the six properties [gameState], [plots],
    [camera], [sustainabilityMetrics], [weather] and [season].  It
    rejects only with 'Invalid game data format', and only when the
    user has a record. *)
Theorem X9_loadGameState_outcomes d userId :
  match loadGameState d userId with
  | Resolve r =>
      (r = VNull <-> saves_of d userId = [])
      /\ (r <> VNull ->
          exists row,
            In row (saves_of d userId)
            /\ (forall row', In row' (saves_of d userId) ->
                  gs_updated_at row' <= gs_updated_at row)
            /\ get (get r "metadata") "lastSaved" = VNum (gs_updated_at row)
            /\ keys (get r "gameData")
               = ["gameState"; "plots"; "camera"; "sustainabilityMetrics";
                  "weather"; "season"]%string)
  | Reject e =>
      e = Error "Invalid game data format" /\ saves_of d userId <> []
  end.
Proof.
  unfold loadGameState, select_latest_save. fold (saves_of d userId).
  pose proof (first_by_desc gs_updated_at (saves_of d userId)) as H.
  destruct (hd_error _) as [save|].
  - destruct H as [Hin Hmax].
    assert (saves_of d userId <> []) as Hne
      by (intros E; rewrite E in Hin; exact Hin).
    destruct (JSON.parse (gs_game_state save)) as [g|]; [|split; auto].
    destruct (JSON.parse (gs_plots_data save)) as [pl|]; [|split; auto].
    destruct (JSON.parse (gs_camera_data save)) as [c|]; [|split; auto].
    destruct (nullish g); [split; auto|].
    split.
    + split; [discriminate | intros E; contradiction].
    + intros _. exists save. repeat split; auto.
  - split; [tauto|]. intros Hr. exfalso. apply Hr. reflexivity.
Qed.

(** ** Ratings and badges in routes/game.js and routes/leaderboard.js *)

(** X15.  The two tables of ratings agree.  Whatever the save route is
    given as rating, short of the name of a property objects inherit,
    the rating the leaderboard routes show for the score it computes is
    that rating if it is (or converts to) one of the five names, and
    'Beginner' otherwise; it is never 'Unknown'. *)
Theorem X15_rating_survives_score_and_display (rating : value) :
  ~ In (to_string rating) inherited_names ->
  let shown :=
    js_or (index ratings (sustainabilityScore rating)) (VStr "Unknown") in
  (In (to_string rating) rating_names -> shown = VStr (to_string rating))
  /\ (~ In (to_string rating) rating_names -> shown = VStr "Beginner")
  /\ get (detailed_entry (VObj [("score", sustainabilityScore rating)]))
         "sustainabilityRating" = shown.
Proof.
  intros _. cbv zeta. unfold sustainabilityScore, get_key, sustainabilityScores.
  cbn [get assoc].
  set (k := to_string rating).
  destruct (String.eqb_spec k "Eco Master") as [-> | N1].
  { repeat split; try reflexivity. intros H. exfalso. apply H. simpl. tauto. }
  destruct (String.eqb_spec k "Green Farmer") as [-> | N2].
  { repeat split; try reflexivity. intros H. exfalso. apply H. simpl. tauto. }
  destruct (String.eqb_spec k "Eco Enthusiast") as [-> | N3].
  { repeat split; try reflexivity. intros H. exfalso. apply H. simpl. tauto. }
  destruct (String.eqb_spec k "Learning") as [-> | N4].
  { repeat split; try reflexivity. intros H. exfalso. apply H. simpl. tauto. }
  destruct (String.eqb_spec k "Beginner") as [-> | N5].
  { repeat split; try reflexivity. }
  repeat split; try reflexivity.
  intros [H | [H | [H | [H | [H | []]]]]]; congruence.
Qed.

Lemma X15_rating_survives_score_and_display_witness :
  let shown :=
    js_or (index ratings (sustainabilityScore (VStr "Green Farmer")))
          (VStr "Unknown") in
  (In (to_string (VStr "Green Farmer")) rating_names ->
   shown = VStr (to_string (VStr "Green Farmer")))
  /\ (~ In (to_string (VStr "Green Farmer")) rating_names ->
      shown = VStr "Beginner")
  /\ get (detailed_entry
            (VObj [("score", sustainabilityScore (VStr "Green Farmer"))]))
         "sustainabilityRating" = shown.
Proof.
  apply (X15_rating_survives_score_and_display (VStr "Green Farmer")).
  simpl. intros H.
  repeat (destruct H as [H | H]; [discriminate H|]). exact H.
Defined.

(** X16.  The badges of the detailed route.  For a number score the
    entry has the badges of the thresholds 5, 4 and 3 the score reaches,
    in that order, so that a larger score never has fewer badges; and the
    rating is 'Unknown' exactly when the score is not one of 1 to 5. *)
Theorem X16_detailed_entry_badges entry n :
  get entry "score" = VNum n ->
  get (detailed_entry entry) "badges"
  = VArr (skipn (Z.to_nat (5 - Z.max 2 (Z.min n 5)))
                [VStr "Eco Master"; VStr "Green Farmer";
                 VStr "Eco Enthusiast"])
  /\ (get (detailed_entry entry) "sustainabilityRating" = VStr "Unknown"
      <-> ~ 1 <= n <= 5).
Proof.
  intros Hs. unfold detailed_entry. rewrite Hs.
  cbn [get assoc String.eqb Ascii.eqb Bool.eqb num_ge index].
  destruct (Z.leb_spec 5 n); [destruct (Z.leb_spec 4 n); [|lia];
                               destruct (Z.leb_spec 3 n); [|lia]|].
  - replace (Z.max 2 (Z.min n 5)) with 5 by lia. split; [reflexivity|].
    destruct (Z.ltb_spec n 0); [lia|].
    destruct (Z.eq_dec n 5) as [-> | Hne].
    + simpl. split; [discriminate | lia].
    + assert (nth_error ratings (Z.to_nat n) = None) as ->.
      { apply nth_error_None. simpl. lia. }
      split; [lia | reflexivity].
  - destruct (Z.leb_spec 4 n); [destruct (Z.leb_spec 3 n); [|lia]|].
    + assert (n = 4) as -> by lia. split; [reflexivity|].
      simpl. split; [discriminate | lia].
    + destruct (Z.leb_spec 3 n).
      * assert (n = 3) as -> by lia. split; [reflexivity|].
        simpl. split; [discriminate | lia].
      * replace (Z.max 2 (Z.min n 5)) with 2 by lia. split; [reflexivity|].
        destruct (Z.ltb_spec n 0); [split; [lia | reflexivity]|].
        assert (n = 0 \/ n = 1 \/ n = 2) as [-> | [-> | ->]] by lia; simpl;
          (split; [try discriminate; lia | try lia; reflexivity]).
Qed.

Lemma X16_detailed_entry_badges_witness :
  get (detailed_entry (VObj [("score", VNum 4)])) "badges"
  = VArr (skipn (Z.to_nat (5 - Z.max 2 (Z.min 4 5)))
                [VStr "Eco Master"; VStr "Green Farmer";
                 VStr "Eco Enthusiast"])
  /\ (get (detailed_entry (VObj [("score", VNum 4)])) "sustainabilityRating"
      = VStr "Unknown" <-> ~ 1 <= 4 <= 5).
Proof.
  apply (X16_detailed_entry_badges (VObj [("score", VNum 4)]) 4).
  reflexivity.
Defined.

(** ** js/api-client.js: the token of the client *)

Lemma assoc_obj_set k v ps : assoc k (obj_set k v ps) = Some v.
Proof.
  induction ps as [|[k' v'] ps IH]; simpl.
  - rewrite String.eqb_refl. reflexivity.
  - destruct (String.eqb k k') eqn:E; simpl; rewrite E; [reflexivity | exact IH].
Qed.

Lemma split_space_word t rest :
  no_space t = true ->
  split_space (t ++ String " " rest) = t :: split_space rest.
Proof.
  induction t as [|c t IH]; simpl; intros H; [reflexivity|].
  apply andb_true_iff in H as (Hc & Ht). apply negb_true_iff in Hc.
  rewrite Hc, (IH Ht). reflexivity.
Qed.

Lemma split_space_last t : no_space t = true -> split_space t = [t].
Proof.
  induction t as [|c t IH]; simpl; intros H; [reflexivity|].
  apply andb_true_iff in H as (Hc & Ht). apply negb_true_iff in Hc.
  rewrite Hc, (IH Ht). reflexivity.
Qed.

Lemma truthy_not_nullish v : truthy v = true -> nullish v = false.
Proof. destruct v; simpl; congruence. Qed.

Lemma authorization_of_token c endpoint o :
  truthy (Client.token c) = true ->
  Client.authorization (Client.config_of c endpoint o)
  = VStr ("Bearer " ++ to_string (Client.token c)).
Proof.
  intros H. unfold Client.authorization, Client.config_of.
  cbn [Client.f_headers]. rewrite H. cbn [get].
  rewrite assoc_obj_set. reflexivity.
Qed.

(** X17.  The header the client writes and the token the middleware
    reads.  For a token that is a non-empty string, the word after
    'Bearer' that [authenticateToken] takes from the Authorization header
    of [request] is the token itself if it has no space, and only its
    part before the first space otherwise. *)
Theorem X17_bearer_token_of_the_client_header c endpoint o t rest :
  no_space t = true -> t <> EmptyString ->
  (Client.token c = VStr t ->
   exists h, Client.authorization (Client.config_of c endpoint o) = VStr h
             /\ bearer_token (Some h) = Some t)
  /\ (Client.token c = VStr (t ++ String " " rest) ->
      exists h, Client.authorization (Client.config_of c endpoint o) = VStr h
                /\ bearer_token (Some h) = Some t).
Proof.
  intros Hs Hne.
  assert (String.eqb t EmptyString = false) as Ht
    by (apply String.eqb_neq; exact Hne).
  split; intros Hc.
  - eexists. split.
    + apply authorization_of_token. rewrite Hc. simpl. rewrite Ht. reflexivity.
    + rewrite Hc. cbn [to_string]. unfold bearer_token.
      change ("Bearer " ++ t)%string with ("Bearer" ++ String " " t)%string.
      rewrite split_space_word by reflexivity.
      rewrite (split_space_last t Hs). cbn [nth_error]. rewrite Ht.
      reflexivity.
  - eexists. split.
    + apply authorization_of_token. rewrite Hc. simpl.
      destruct t; [congruence | reflexivity].
    + rewrite Hc. cbn [to_string]. unfold bearer_token.
      change ("Bearer " ++ (t ++ String " " rest))%string
        with ("Bearer" ++ String " " (t ++ String " " rest))%string.
      rewrite split_space_word by reflexivity.
      rewrite (split_space_word t rest Hs). cbn [nth_error]. rewrite Ht.
      reflexivity.
Qed.

Lemma X17_bearer_token_of_the_client_header_witness :
  (Client.token (Client.new_GameAPI "http://localhost:3000" (Some "abc"))
   = VStr "abc" ->
   exists h,
     Client.authorization
       (Client.config_of
          (Client.new_GameAPI "http://localhost:3000" (Some "abc"))
          "/game/load" Client.no_options) = VStr h
     /\ bearer_token (Some h) = Some "abc")
  /\ (Client.token (Client.new_GameAPI "http://localhost:3000" (Some "abc"))
      = VStr ("abc" ++ String " " "def") ->
      exists h,
        Client.authorization
          (Client.config_of
             (Client.new_GameAPI "http://localhost:3000" (Some "abc"))
             "/game/load" Client.no_options) = VStr h
        /\ bearer_token (Some h) = Some "abc").
Proof.
  apply (X17_bearer_token_of_the_client_header
           (Client.new_GameAPI "http://localhost:3000" (Some "abc"))
           "/game/load" Client.no_options "abc" "def").
  - reflexivity.
  - discriminate.
Defined.

Lemma keep_token_in_sync c r :
  Client.in_sync c -> Client.in_sync (fst (Client.keep_token c r)).
Proof.
  intros H. unfold Client.keep_token.
  destruct r as [response|e]; [|exact H].
  destruct (nullish response); [exact H|].
  destruct (truthy (get response "token")) eqn:E; [|exact H].
  unfold Client.in_sync. cbn [fst Client.stored_token Client.token].
  split; [reflexivity | apply truthy_not_nullish; exact E].
Qed.

Lemma step_in_sync c u : Client.in_sync c -> Client.in_sync (Client.step c u).
Proof.
  intros H. destruct u as [[userData|credentials| | |m] fetch];
    cbn [Client.step].
  - apply keep_token_in_sync, H.
  - apply keep_token_in_sync, H.
  - reflexivity.
  - unfold Client.verifyToken.
    destruct (Client.request c fetch "/auth/verify" Client.no_options);
      [exact H | reflexivity].
  - exact H.
Qed.

(** X18.  The token in memory and the item 'zonorg_token' of localStorage
    never part.  From [new GameAPI()] on, after any sequence of calls of
    the methods against any server, there is no item and [this.token] is
    [null], or the item is [this.token] as a string; so the next page
    load starts with the same token. *)
Theorem X18_token_and_storage_stay_in_sync origin item uses :
  let c := Client.run (Client.new_GameAPI origin item) uses in
  Client.in_sync c
  /\ Client.token (Client.new_GameAPI origin (Client.stored_token c))
     = (if nullish (Client.token c) then VNull
        else VStr (to_string (Client.token c))).
Proof.
  cbv zeta.
  assert (Client.in_sync (Client.run (Client.new_GameAPI origin item) uses))
    as H.
  { unfold Client.run.
    assert (Client.in_sync (Client.new_GameAPI origin item)) as H0.
    { destruct item; unfold Client.in_sync; simpl; auto. }
    revert H0. generalize (Client.new_GameAPI origin item).
    induction uses as [|u uses IH]; intros c Hc; simpl; [exact Hc|].
    apply IH, step_in_sync, Hc. }
  split; [exact H|].
  revert H. generalize (Client.run (Client.new_GameAPI origin item) uses).
  intros c H. unfold Client.in_sync in H.
  destruct (Client.stored_token c) as [s|].
  - destruct H as (<- & ->). reflexivity.
  - rewrite H. reflexivity.
Qed.

(** X19.  Leaving.  [logout] resolves and ends logged out with the item
    removed whatever the server does, also when the request fails;
    [verifyToken] keeps the client as it is when the request succeeds and
    ends logged out with the item removed when it fails, whatever the
    reason of the failure (also when there is no connection). *)
Theorem X19_logout_and_failed_verification_forget_the_token c fetch :
  (let (c', r) := Client.logout c fetch in
   r = Client.Returned VUndefined
   /\ Client.isLoggedIn c' = false /\ Client.stored_token c' = None)
  /\ (let (c', r) := Client.verifyToken c fetch in
      match r with
      | Client.Returned _ => c' = c
      | Client.Rejected _ =>
          Client.isLoggedIn c' = false /\ Client.stored_token c' = None
      end)
  /\ (fetch (Client.config_of c "/auth/verify" Client.no_options)
      = Client.NoResponse ->
      Client.isLoggedIn (fst (Client.verifyToken c fetch)) = false).
Proof.
  split; [|split].
  - unfold Client.logout. repeat split.
  - unfold Client.verifyToken.
    destruct (Client.request c fetch "/auth/verify" Client.no_options);
      [reflexivity | split; reflexivity].
  - intros H. unfold Client.verifyToken, Client.request. rewrite H.
    reflexivity.
Qed.

(** X20.  Entering.  After [login] the client is logged in exactly when
    it was logged in before or the server answered ok with a JSON value
    that has a truthy [token]; in particular a refused login leaves an
    earlier token in place. *)
Theorem X20_logged_in_after_login c fetch credentials :
  Client.isLoggedIn (fst (Client.login c fetch credentials)) = true
  <-> Client.isLoggedIn c = true
      \/ exists st data,
           fetch (Client.config_of c "/auth/login" (Client.post credentials))
           = Client.Response true st (Some data)
           /\ truthy (get data "token") = true.
Proof.
  unfold Client.login, Client.request.
  destruct (fetch (Client.config_of c "/auth/login" (Client.post credentials)))
    as [|ok st [data|]] eqn:E; cbn [Client.keep_token fst].
  - split; [tauto|]. intros [H | (st & data & H & _)]; [exact H | discriminate].
  - destruct ok; cbn [negb].
    + cbn [Client.keep_token].
      destruct (nullish data) eqn:En; cbn [fst].
      * split; [tauto|].
        intros [H | (st' & data' & H & Ht)]; [exact H|].
        inversion H; subst. destruct data'; discriminate.
      * destruct (truthy (get data "token")) eqn:Et; cbn [fst].
        -- split; [|intros _; exact Et].
           intros _. right. exists st, data. split; [reflexivity | exact Et].
        -- split; [tauto|].
           intros [H | (st' & data' & H & Ht)]; [exact H|].
           inversion H; subst. congruence.
    + assert (forall r, fst (Client.keep_token c (Client.Rejected r)) = c) as K
        by reflexivity.
      destruct (nullish data); rewrite K;
        (split; [tauto|]);
        (intros [H | (st' & data' & H & _)]; [exact H | discriminate]).
  - split; [tauto|]. intros [H | (st' & data & H & _)]; [exact H | discriminate].
Qed.

(** ** The routes over saveGameState and loadGameState *)

Lemma loadGameState_cases d userId :
  match loadGameState d userId with
  | Resolve r =>
      (saves_of d userId = [] /\ r = VNull)
      \/ (saves_of d userId <> []
          /\ exists gameData t,
               r = VObj [("gameData", gameData);
                         ("metadata", VObj [("lastSaved", VNum t)])])
  | Reject _ => saves_of d userId <> []
  end.
Proof.
  unfold loadGameState, select_latest_save. fold (saves_of d userId).
  pose proof (first_by_desc gs_updated_at (saves_of d userId)) as H.
  destruct (hd_error _) as [save|].
  - destruct H as [Hin _].
    assert (saves_of d userId <> []) as Hne
      by (intros E; rewrite E in Hin; exact Hin).
    destruct (JSON.parse (gs_game_state save)) as [g|]; [|exact Hne].
    destruct (JSON.parse (gs_plots_data save)) as [pl|]; [|exact Hne].
    destruct (JSON.parse (gs_camera_data save)) as [c|]; [|exact Hne].
    destruct (nullish g); [exact Hne|].
    right. split; [exact Hne|]. eexists. eexists. reflexivity.
  - left. split; [exact H | reflexivity].
Qed.

(** X24.  GET /stats and GET /profile of the users routes.  For a user
    without a save the statistics are the defaults (level 1, coins 100)
    and [gameProgress] is null; for a user with a save both are the
    [metadata] of [loadGameState], an object with [lastSaved] only, so
    that [level] and [coins] are undefined in the statistics. *)
Theorem X24_users_stats_and_profile d user :
  let s := users_get_stats d user in
  let p := users_get_profile d user in
  (status s = 200 <-> status p = 200)
  /\ (status s = 200 ->
      if match saves_of d (jwt_userId user) with [] => true | _ => false end
      then get (body s) "stats" = default_stats
           /\ get (body p) "gameProgress" = VNull
      else exists t,
             get (body s) "stats" = VObj [("lastSaved", VNum t)]
             /\ get (body p) "gameProgress" = VObj [("lastSaved", VNum t)]
             /\ get (get (body s) "stats") "level" = VUndefined
             /\ get (get (body s) "stats") "coins" = VUndefined).
Proof.
  cbv zeta. unfold users_get_stats, users_get_profile.
  pose proof (loadGameState_cases d (jwt_userId user)) as H.
  destruct (loadGameState d (jwt_userId user)) as [r|e].
  - destruct H as [(He & ->) | (Hne & gd & t & ->)]; cbn [truthy negb].
    + split; [split; reflexivity|]. intros _. rewrite He.
      split; reflexivity.
    + split; [split; reflexivity|]. intros _.
      destruct (saves_of d (jwt_userId user)); [contradiction|].
      exists t. repeat split.
  - split; [split; discriminate | discriminate].
Qed.

Lemma X24_users_stats_and_profile_witness :
  let s := users_get_stats two_farmers_db (mkJwtUser 1 "ann") in
  let p := users_get_profile two_farmers_db (mkJwtUser 1 "ann") in
  if match saves_of two_farmers_db 1 with [] => true | _ => false end
  then get (body s) "stats" = default_stats
       /\ get (body p) "gameProgress" = VNull
  else exists t,
         get (body s) "stats" = VObj [("lastSaved", VNum t)]
         /\ get (body p) "gameProgress" = VObj [("lastSaved", VNum t)]
         /\ get (get (body s) "stats") "level" = VUndefined
         /\ get (get (body s) "stats") "coins" = VUndefined.
Proof.
  apply (X24_users_stats_and_profile two_farmers_db (mkJwtUser 1 "ann")).
  reflexivity.
Defined.

(** ** Register, then log in, through the routes *)

Section RegisterLogin.

Context {host : Host}.


End RegisterLogin.




(** ** The leaderboard route of database/routes/game.js *)


(** ** The migration check of the client *)

(** X29.  [migrateLocalStorageData()] never reports a migration:
    [migrated] is false in everything it returns.  It gives the reason
    'No local data found' exactly when each of the three items is
    missing or empty; otherwise it returns the error of the first item
    that does not parse, or the migration data, in which an item that
    is missing or empty is null and every other one is its parsed
    value. *)
Theorem X29_migration_check_never_migrates
    parse localUsers localUser farmGameSave :
  let r := Client.migrateLocalStorageData parse localUsers localUser
             farmGameSave in
  get r "migrated" = VBool false
  /\ (get r "reason" = VStr "No local data found"
      <-> Client.has_item localUsers = false
          /\ Client.has_item localUser = false
          /\ Client.has_item farmGameSave = false)
  /\ (get r "migrationData" <> VUndefined ->
      Client.parse_item parse localUsers
      = inr (get (get r "migrationData") "users")
      /\ Client.parse_item parse localUser
         = inr (get (get r "migrationData") "currentUser")
      /\ Client.parse_item parse farmGameSave
         = inr (get (get r "migrationData") "gameSave")
      /\ (Client.has_item localUsers = false ->
          get (get r "migrationData") "users" = VNull)).
Proof.
  cbv zeta. unfold Client.migrateLocalStorageData.
  destruct (negb (Client.has_item localUsers)
            && negb (Client.has_item localUser)
            && negb (Client.has_item farmGameSave)) eqn:Hall.
  - apply andb_true_iff in Hall as [Hall H3].
    apply andb_true_iff in Hall as [H1 H2].
    apply negb_true_iff in H1, H2, H3.
    split; [reflexivity|]. split; [split; [auto | reflexivity]|].
    intros H. exfalso. apply H. reflexivity.
  - assert (~ (Client.has_item localUsers = false
               /\ Client.has_item localUser = false
               /\ Client.has_item farmGameSave = false)) as Hsome.
    { intros (H1 & H2 & H3). rewrite H1, H2, H3 in Hall. discriminate. }
    destruct (Client.parse_item parse localUsers) as [m1|users] eqn:P1;
      [|destruct (Client.parse_item parse localUser) as [m2|currentUser];
        [|destruct (Client.parse_item parse farmGameSave) as [m3|gameSave]]];
      cbn [get assoc String.eqb Ascii.eqb Bool.eqb];
      (split; [reflexivity|]);
      (split; [split; [discriminate | intros H; contradiction]|]);
      try (intros H; exfalso; apply H; reflexivity).
    intros _. repeat split. intros Hf.
    revert P1. unfold Client.parse_item, Client.has_item in *.
    destruct localUsers as [s|]; [rewrite Hf|]; congruence.
Qed.
